(** * me-gpt: a shallow embedding of the provider adapters, the dispatcher,
    the session log and the configuration persistence.

    Python values produced by [response.json()] / [yaml.safe_load] are modelled
    by [pyval]; an exception raised by the code is an [Err] of [py_error].
    Floating-point numbers are not modelled: JSON numbers are integers here. *)

From Stdlib Require Import String Ascii List ZArith Bool Lia Permutation.
Import ListNotations.
Open Scope string_scope.
Set Warnings "-register-all".

(** ** Python values and the operations the adapters apply to them *)

Inductive pyval : Type :=
| PNone
| PBool (b : bool)
| PInt (n : Z)
| PStr (s : string)
| PList (l : list pyval)
| PDict (d : list (string * pyval)).

(** Exceptions raised by the code (or by the libraries it calls). *)
Inductive py_error : Type :=
| ValueError (msg : string)
| KeyError (key : string)
| IndexError
| TypeError
| AttributeError
| HTTPStatusError (status : Z)
| TransportError
| JSONDecodeError
| YAMLError
| ValidationError.

Inductive res (A : Type) : Type :=
| Ok (a : A)
| Err (e : py_error).
Arguments Ok {A} a.
Arguments Err {A} e.

Definition res_bind {A B} (r : res A) (k : A -> res B) : res B :=
  match r with
  | Ok a => k a
  | Err e => Err e
  end.

Notation "x <- r ;; k" := (res_bind r (fun x => k))
  (at level 61, r at next level, right associativity).

(** Dictionary lookup.  A dict decoded from JSON keeps the last value of a
    duplicated key, so the last binding wins. *)
Fixpoint dict_lookup {A} (k : string) (d : list (string * A)) : option A :=
  match d with
  | [] => None
  | (k', v) :: t =>
      match dict_lookup k t with
      | Some w => Some w
      | None => if String.eqb k k' then Some v else None
      end
  end.

(** [obj.get(k, default)]: only dicts have a [get] method. *)
Definition py_get (obj : pyval) (k : string) (default : pyval) : res pyval :=
  match obj with
  | PDict d => Ok (match dict_lookup k d with Some v => v | None => default end)
  | _ => Err AttributeError
  end.

(** [obj[k]] with a string key. *)
Definition py_getitem (obj : pyval) (k : string) : res pyval :=
  match obj with
  | PDict d =>
      match dict_lookup k d with Some v => Ok v | None => Err (KeyError k) end
  | _ => Err TypeError
  end.

(** [obj[i]] with an integer index. *)
Definition py_index (obj : pyval) (i : nat) : res pyval :=
  match obj with
  | PList l => match nth_error l i with Some v => Ok v | None => Err IndexError end
  | PStr s =>
      match String.get i s with
      | Some c => Ok (PStr (String c EmptyString))
      | None => Err IndexError
      end
  | PDict _ => Err (KeyError "0")
  | _ => Err TypeError
  end.

(** Python truthiness. *)
Definition truthy (v : pyval) : bool :=
  match v with
  | PNone => false
  | PBool b => b
  | PInt n => negb (Z.eqb n 0)
  | PStr s => negb (String.eqb s "")
  | PList l => match l with [] => false | _ => true end
  | PDict d => match d with [] => false | _ => true end
  end.

(** The binary [+] operator ([bool] is a subclass of [int]). *)
Definition py_add (a b : pyval) : res pyval :=
  let as_int v := match v with
                  | PInt n => Some n
                  | PBool true => Some 1%Z
                  | PBool false => Some 0%Z
                  | _ => None
                  end in
  match as_int a, as_int b with
  | Some x, Some y => Ok (PInt (x + y))
  | _, _ =>
      match a, b with
      | PStr x, PStr y => Ok (PStr (x ++ y))
      | PList x, PList y => Ok (PList (x ++ y)%list)
      | _, _ => Err TypeError
      end
  end.

(** Truthiness of an [Optional[str]] and an [Optional[int]]. *)
Definition truthy_str (o : option string) : bool :=
  match o with Some s => negb (String.eqb s "") | None => false end.

Definition truthy_int (o : option Z) : bool :=
  match o with Some n => negb (Z.eqb n 0) | None => false end.

(** [x or y] on optional values, and [x or d] ending a chain with a literal. *)
Definition py_or {A} (t : option A -> bool) (x y : option A) : option A :=
  if t x then x else y.

Definition py_or_default {A} (t : option A -> bool) (x : option A) (d : A) : A :=
  if t x then match x with Some a => a | None => d end else d.

(** [sep.join(l)]. *)
Fixpoint py_join (sep : string) (l : list string) : string :=
  match l with
  | [] => ""
  | [x] => x
  | x :: t => x ++ sep ++ py_join sep t
  end.

(** [str.lower()] on ASCII text. *)
Definition lower_char (c : ascii) : ascii :=
  let n := nat_of_ascii c in
  if (65 <=? n)%nat && (n <=? 90)%nat then ascii_of_nat (n + 32) else c.

Fixpoint py_lower (s : string) : string :=
  match s with
  | EmptyString => EmptyString
  | String c t => String (lower_char c) (py_lower t)
  end.

(** [needle in hay] on strings. *)
Fixpoint py_contains (needle hay : string) : bool :=
  match hay with
  | EmptyString => String.prefix needle hay
  | String _ t => String.prefix needle hay || py_contains needle t
  end.

Definition nl : string := String (ascii_of_nat 10) EmptyString.

(** ** HTTP exchanges: a state monad over the log of requests sent *)

Record request : Type := {
  req_url : string;
  req_headers : list (string * string);
  req_json : pyval;
  req_timeout : Z
}.

(** What the remote end does with one request. *)
Inductive http_outcome : Type :=
| HttpResponse (status : Z) (body : option pyval)  (* [None]: not JSON *)
| HttpTransportFailure.

Definition server := request -> http_outcome.

Definition M (A : Type) : Type := list request -> res A * list request.


Definition M_bind {A B} (c : M A) (k : A -> M B) : M B :=
  fun log => match c log with
             | (Ok a, log') => k a log'
             | (Err e, log') => (Err e, log')
             end.

Definition lift {A} (r : res A) : M A := fun log => (r, log).

Notation "x <-m c ;; k" := (M_bind c (fun x => k))
  (at level 61, c at next level, right associativity).

(** [client.post(url, json=payload, headers=headers)], then
    [response.raise_for_status()] and [response.json()]. *)
Definition post (srv : server) (r : request) : M pyval :=
  fun log =>
    let log' := (log ++ [r])%list in
    match srv r with
    | HttpTransportFailure => (Err TransportError, log')
    | HttpResponse st body =>
        if (200 <=? st)%Z && (st <? 300)%Z then
          match body with
          | Some data => (Ok data, log')
          | None => (Err JSONDecodeError, log')
          end
        else (Err (HTTPStatusError st), log')
    end.

(** ** agent/config.py *)
Module Config.

Record ProviderConfig : Type := {
  base_url : string;
  api_key_env : option string;
  model : option string;
  max_tokens : option Z;
  timeout : Z
}.

(** [os.getenv] *)
Definition environ := string -> option string.

Definition get_api_key (env : environ) (c : ProviderConfig) : option string :=
  if truthy_str (api_key_env c) then
    match api_key_env c with Some n => env n | None => None end
  else None.

Record AgentConfig : Type := {
  default_provider : string;
  providers : list (string * ProviderConfig)
}.

(** [AgentConfig()]: the field defaults. *)
Definition AgentConfig_default : AgentConfig :=
  {| default_provider := "openai"; providers := [] |}.

Definition get_config_path (home : string) : string :=
  home ++ "/.config/agent/config.yaml".

(** [get_provider(name)]: [name or self.default_provider]. *)
Definition get_provider (c : AgentConfig) (name : option string)
  : option ProviderConfig :=
  let provider_name := py_or_default truthy_str name (default_provider c) in
  dict_lookup provider_name (providers c).

Definition create_default_config : AgentConfig :=
  {| default_provider := "openai";
     providers :=
       [("openai", {| base_url := "https://api.openai.com";
                      api_key_env := Some "OPENAI_API_KEY";
                      model := Some "gpt-4"; max_tokens := Some 1024%Z;
                      timeout := 60 |});
        ("anthropic", {| base_url := "https://api.anthropic.com";
                         api_key_env := Some "ANTHROPIC_API_KEY";
                         model := Some "claude-3-5-sonnet-20241022";
                         max_tokens := Some 1024%Z; timeout := 60 |});
        ("local_mcp", {| base_url := "http://localhost:8080";
                         api_key_env := None; model := Some "local-model";
                         max_tokens := Some 1024%Z; timeout := 60 |})] |}.

(** *** Persistence: [model_dump], [yaml.safe_dump], [yaml.safe_load], [cls( **data)] *)

Definition opt_str_val (o : option string) : pyval :=
  match o with Some s => PStr s | None => PNone end.

Definition opt_int_val (o : option Z) : pyval :=
  match o with Some n => PInt n | None => PNone end.

(** [ProviderConfig.model_dump()]: the fields in declaration order. *)
Definition dump_ProviderConfig (c : ProviderConfig) : pyval :=
  PDict [("base_url", PStr (base_url c));
         ("api_key_env", opt_str_val (api_key_env c));
         ("model", opt_str_val (model c));
         ("max_tokens", opt_int_val (max_tokens c));
         ("timeout", PInt (timeout c))].

Definition model_dump (c : AgentConfig) : pyval :=
  PDict [("default_provider", PStr (default_provider c));
         ("providers",
           PDict (map (fun '(k, pc) => (k, dump_ProviderConfig pc)) (providers c)))].

(** [yaml.safe_dump] writes mappings with their keys sorted ([sort_keys=True]
    by default); [sort_keys] is the value a dump followed by a load reads back. *)
Fixpoint insert_entry {A} (e : string * A) (l : list (string * A))
  : list (string * A) :=
  match l with
  | [] => [e]
  | e' :: t => if String.leb (fst e) (fst e') then e :: l else e' :: insert_entry e t
  end.

Definition sort_entries {A} (l : list (string * A)) : list (string * A) :=
  fold_right insert_entry [] l.

Fixpoint sort_keys (v : pyval) : pyval :=
  match v with
  | PList l => PList (map sort_keys l)
  | PDict d => PDict (sort_entries (map (fun '(k, x) => (k, sort_keys x)) d))
  | _ => v
  end.

(** The YAML library: a document type with [safe_dump] and [safe_load]. *)
Record YamlLib : Type := {
  yaml_doc : Type;
  safe_dump : pyval -> yaml_doc;
  safe_load : yaml_doc -> res pyval
}.

(** pydantic validation of the native forms of each field.  Inputs of other
    types are reported as [ValidationError] (pydantic's lax mode coerces a few
    of them, e.g. numeric strings; [model_dump] never produces those). *)
Definition v_opt_str (o : option pyval) : res (option string) :=
  match o with
  | None | Some PNone => Ok None
  | Some (PStr s) => Ok (Some s)
  | Some _ => Err ValidationError
  end.

Definition v_opt_int (o : option pyval) : res (option Z) :=
  match o with
  | None | Some PNone => Ok None
  | Some (PInt n) => Ok (Some n)
  | Some _ => Err ValidationError
  end.

Definition validate_ProviderConfig (v : pyval) : res ProviderConfig :=
  match v with
  | PDict d =>
      b <- (match dict_lookup "base_url" d with
            | Some (PStr s) => Ok s
            | _ => Err ValidationError
            end) ;;
      k <- v_opt_str (dict_lookup "api_key_env" d) ;;
      m <- v_opt_str (dict_lookup "model" d) ;;
      mt <- v_opt_int (dict_lookup "max_tokens" d) ;;
      t <- (match dict_lookup "timeout" d with
            | None => Ok 60%Z
            | Some (PInt n) => Ok n
            | Some _ => Err ValidationError
            end) ;;
      Ok {| base_url := b; api_key_env := k; model := m; max_tokens := mt;
            timeout := t |}
  | _ => Err ValidationError
  end.

Fixpoint validate_providers (d : list (string * pyval))
  : res (list (string * ProviderConfig)) :=
  match d with
  | [] => Ok []
  | (k, v) :: t =>
      pc <- validate_ProviderConfig v ;;
      rest <- validate_providers t ;;
      Ok ((k, pc) :: rest)
  end.

(** [cls( **data)]: [data] must be a mapping. *)
Definition validate_AgentConfig (data : pyval) : res AgentConfig :=
  match data with
  | PDict d =>
      dp <- (match dict_lookup "default_provider" d with
             | None => Ok "openai"
             | Some (PStr s) => Ok s
             | Some _ => Err ValidationError
             end) ;;
      ps <- (match dict_lookup "providers" d with
             | None => Ok []
             | Some (PDict pd) => validate_providers pd
             | Some _ => Err ValidationError
             end) ;;
      Ok {| default_provider := dp; providers := ps |}
  | _ => Err TypeError
  end.

Section Persistence.
Variable Y : YamlLib.

(** The file system: path to stored document ([None]: no file). *)
Definition fs_state := string -> option (yaml_doc Y).

(** [AgentConfig.load(config_path)] *)
Definition load (home : string) (fs : fs_state) (config_path : option string)
  : res AgentConfig :=
  let p := match config_path with Some p => p | None => get_config_path home end in
  match fs p with
  | None => Ok AgentConfig_default
  | Some doc =>
      data <- safe_load Y doc ;;
      let data := if truthy data then data else PDict [] in
      validate_AgentConfig data
  end.

(** [config.save(config_path)]: directory creation is not modelled; the
    write replaces the file's content. *)
Definition save (home : string) (c : AgentConfig) (config_path : option string)
  (fs : fs_state) : fs_state :=
  let p := match config_path with Some p => p | None => get_config_path home end in
  fun q => if String.eqb q p then Some (safe_dump Y (model_dump c)) else fs q.

End Persistence.

End Config.

(** ** agent/providers/base.py *)
Module Base.

(** The dataclass fields hold whatever the adapter read from the response. *)
Record TokenUsage : Type := {
  prompt_tokens : pyval;
  completion_tokens : pyval;
  total_tokens : pyval
}.

Record CompletionResult : Type := {
  id : pyval;
  text : pyval;
  model : pyval;
  usage : option TokenUsage
}.

(** The keyword arguments of [complete]; a temperature is an integer here. *)
Record CallOptions : Type := {
  opt_model : option string;
  opt_max_tokens : option Z;
  opt_temperature : option Z
}.

Definition no_options : CallOptions :=
  {| opt_model := None; opt_max_tokens := None; opt_temperature := None |}.

(** [if temperature is not None: payload["temperature"] = temperature] *)
Definition temperature_field (o : CallOptions) : list (string * pyval) :=
  match opt_temperature o with Some t => [("temperature", PInt t)] | None => [] end.

End Base.

Import Config Base.

(** ** agent/providers/openai.py *)
Module OpenAI.

Record OpenAIProvider : Type := {
  config : ProviderConfig;
  api_key : string
}.

Definition missing_key_msg (c : ProviderConfig) : string :=
  "API key not found. Set environment variable: "
  ++ match api_key_env c with Some n => n | None => "None" end.

(** [__init__] *)
Definition init (env : environ) (c : ProviderConfig) : res OpenAIProvider :=
  let k := get_api_key env c in
  if negb (truthy_str k) then Err (ValueError (missing_key_msg c))
  else Ok {| config := c; api_key := match k with Some s => s | None => "" end |}.

Definition payload (p : OpenAIProvider) (prompt : string) (o : CallOptions) : pyval :=
  PDict ([("model", PStr (py_or_default truthy_str
                            (py_or truthy_str (opt_model o) (Config.model (config p)))
                            "gpt-4o-mini"));
          ("messages", PList [PDict [("role", PStr "user"); ("content", PStr prompt)]]);
          ("max_tokens", PInt (py_or_default truthy_int
                                 (py_or truthy_int (opt_max_tokens o) (max_tokens (config p)))
                                 1024%Z))]
         ++ temperature_field o)%list.

Definition request_of (p : OpenAIProvider) (prompt : string) (o : CallOptions) : request :=
  {| req_url := base_url (config p) ++ "/v1/chat/completions";
     req_headers := [("Authorization", "Bearer " ++ api_key p);
                     ("Content-Type", "application/json")];
     req_json := payload p prompt o;
     req_timeout := timeout (config p) |}.

(** The response mapping, in the order the statements evaluate. *)
Definition parse (data : pyval) : res CompletionResult :=
  choices <- py_getitem data "choices" ;;
  c0 <- py_index choices 0 ;;
  message <- py_getitem c0 "message" ;;
  txt <- py_getitem message "content" ;;
  usage_data <- py_get data "usage" (PDict []) ;;
  pt <- py_get usage_data "prompt_tokens" (PInt 0) ;;
  ct <- py_get usage_data "completion_tokens" (PInt 0) ;;
  tt <- py_get usage_data "total_tokens" (PInt 0) ;;
  i <- py_getitem data "id" ;;
  m <- py_getitem data "model" ;;
  Ok {| id := i; text := txt; Base.model := m;
        usage := Some {| prompt_tokens := pt; completion_tokens := ct;
                         total_tokens := tt |} |}.

Definition complete (srv : server) (p : OpenAIProvider) (prompt : string)
  (o : CallOptions) : M CompletionResult :=
  data <-m post srv (request_of p prompt o) ;;
  lift (parse data).

End OpenAI.

(** ** agent/providers/http_adapter.py *)
Module HTTPAdapter.

Record HTTPProvider : Type := { config : ProviderConfig }.

Definition init (c : ProviderConfig) : HTTPProvider := {| config := c |}.

Definition payload_model (p : HTTPProvider) (o : CallOptions) : string :=
  py_or_default truthy_str (py_or truthy_str (opt_model o) (Config.model (config p)))
    "default".

Definition payload (p : HTTPProvider) (prompt : string) (o : CallOptions) : pyval :=
  PDict ([("model", PStr (payload_model p o));
          ("input", PStr prompt);
          ("max_tokens", PInt (py_or_default truthy_int
                                 (py_or truthy_int (opt_max_tokens o) (max_tokens (config p)))
                                 1024%Z));
          ("stream", PBool false)]
         ++ temperature_field o)%list.

Definition request_of (p : HTTPProvider) (prompt : string) (o : CallOptions) : request :=
  {| req_url := base_url (config p) ++ "/v1/completions";
     req_headers := [("Content-Type", "application/json")];
     req_json := payload p prompt o;
     req_timeout := timeout (config p) |}.

(** [usage = None; if usage_data: usage = TokenUsage(...)] *)
Definition usage_of (usage_data : pyval) : res (option TokenUsage) :=
  if truthy usage_data then
    pt <- py_get usage_data "prompt" (PInt 0) ;;
    ct <- py_get usage_data "completion" (PInt 0) ;;
    p1 <- py_get usage_data "prompt" (PInt 0) ;;
    c1 <- py_get usage_data "completion" (PInt 0) ;;
    tt <- py_add p1 c1 ;;
    Ok (Some {| prompt_tokens := pt; completion_tokens := ct; total_tokens := tt |})
  else Ok None.

(** The response mapping; [model] is [payload["model"]]. *)
Definition parse (m : string) (data : pyval) : res CompletionResult :=
  txt <- py_get data "output" (PStr "") ;;
  usage_data <- py_get data "token_usage" (PDict []) ;;
  u <- usage_of usage_data ;;
  i <- py_get data "id" (PStr "unknown") ;;
  Ok {| id := i; text := txt; Base.model := PStr m; usage := u |}.

Definition complete (srv : server) (p : HTTPProvider) (prompt : string)
  (o : CallOptions) : M CompletionResult :=
  data <-m post srv (request_of p prompt o) ;;
  lift (parse (payload_model p o) data).

End HTTPAdapter.

(** ** agent/providers/anthropic.py *)
Module Anthropic.

Record AnthropicProvider : Type := {
  config : ProviderConfig;
  api_key : string
}.

(** Modelled from the spec: [AnthropicProvider.__init__] (agent/providers/anthropic.py
    is not among the sources).  "Same fail-fast credential precondition as 4.2",
    with the error the tests expect ("API key not found"). *)
Definition init (env : environ) (c : ProviderConfig) : res AnthropicProvider :=
  let k := get_api_key env c in
  if negb (truthy_str k) then Err (ValueError (OpenAI.missing_key_msg c))
  else Ok {| config := c; api_key := match k with Some s => s | None => "" end |}.

(** Modelled from the spec: the request of [AnthropicProvider.complete].  The
    spec fixes neither the authentication header nor the fallback model name,
    so both are parameters. *)
Definition request_of (auth : string -> string * string) (fallback_model : string)
  (p : AnthropicProvider) (prompt : string) (o : CallOptions) : request :=
  {| req_url := base_url (config p) ++ "/v1/messages";
     req_headers := [auth (api_key p); ("Content-Type", "application/json")];
     req_json :=
       PDict ([("model", PStr (py_or_default truthy_str
                                 (py_or truthy_str (opt_model o) (Config.model (config p)))
                                 fallback_model));
               ("messages", PList [PDict [("role", PStr "user");
                                          ("content", PStr prompt)]]);
               ("max_tokens", PInt (py_or_default truthy_int
                                      (py_or truthy_int (opt_max_tokens o)
                                         (max_tokens (config p)))
                                      1024%Z))]
              ++ temperature_field o)%list;
     req_timeout := timeout (config p) |}.

(** Modelled from the spec: the response mapping of [AnthropicProvider.complete]:
    text from the first content block, [id] and [model] echoed (required),
    usage from [input_tokens]/[output_tokens] with the total their sum, and
    absent when the response carries no usage data. *)
Definition parse (data : pyval) : res CompletionResult :=
  content <- py_getitem data "content" ;;
  b0 <- py_index content 0 ;;
  txt <- py_getitem b0 "text" ;;
  usage_data <- py_get data "usage" (PDict []) ;;
  u <- (if truthy usage_data then
          it <- py_get usage_data "input_tokens" (PInt 0) ;;
          ot <- py_get usage_data "output_tokens" (PInt 0) ;;
          tt <- py_add it ot ;;
          Ok (Some {| prompt_tokens := it; completion_tokens := ot;
                      total_tokens := tt |})
        else Ok None) ;;
  i <- py_getitem data "id" ;;
  m <- py_getitem data "model" ;;
  Ok {| id := i; text := txt; Base.model := m; usage := u |}.

Definition complete (auth : string -> string * string) (fallback_model : string)
  (srv : server) (p : AnthropicProvider) (prompt : string) (o : CallOptions)
  : M CompletionResult :=
  data <-m post srv (request_of auth fallback_model p prompt o) ;;
  lift (parse data).

End Anthropic.

(** ** agent/session.py *)
Module Session.

Record Message : Type := { role : string; content : string }.

Record Session : Type := { messages : list Message }.

Definition new : Session := {| messages := [] |}.

Definition add_user_message (s : Session) (c : string) : Session :=
  {| messages := app (messages s) [{| role := "user"; content := c |}] |}.

Definition add_assistant_message (s : Session) (c : string) : Session :=
  {| messages := app (messages s) [{| role := "assistant"; content := c |}] |}.

(** [self.messages.copy()] *)
Definition get_history (s : Session) : list Message := messages s.

Definition clear (s : Session) : Session := {| messages := [] |}.

(** The loop appends one line per message, then [ "\n".join(lines) ]. *)
Definition format_for_display (s : Session) : string :=
  let lines :=
    fold_left (fun lines msg =>
                 let prefix := if String.eqb (role msg) "user" then "User:"
                               else "Assistant:" in
                 app lines [prefix ++ " " ++ content msg])
              (messages s) [] in
  py_join nl lines.

End Session.

(** ** agent/cli.py: the dispatcher *)
Module Cli.

Inductive adapter_kind : Type := OpenAIKind | AnthropicKind | HTTPKind.

Inductive provider : Type :=
| POpenAI (p : OpenAI.OpenAIProvider)
| PAnthropic (p : Anthropic.AnthropicProvider)
| PHTTP (p : HTTPAdapter.HTTPProvider).

(** The branch on the lowercased base URL. *)
Definition select_kind (base_url : string) : adapter_kind :=
  let u := py_lower base_url in
  if py_contains "openai.com" u then OpenAIKind
  else if py_contains "anthropic.com" u then AnthropicKind
  else HTTPKind.

(** The constructor of the selected adapter class. *)
Definition construct (env : environ) (k : adapter_kind) (c : ProviderConfig)
  : res provider :=
  match k with
  | OpenAIKind => p <- OpenAI.init env c ;; Ok (POpenAI p)
  | AnthropicKind => p <- Anthropic.init env c ;; Ok (PAnthropic p)
  | HTTPKind => Ok (PHTTP (HTTPAdapter.init c))
  end.

(** [get_provider(provider_name, config)]; a pydantic model is always truthy. *)
Definition get_provider (env : environ) (provider_name : string) (cfg : AgentConfig)
  : res provider :=
  match Config.get_provider cfg (Some provider_name) with
  | None =>
      Err (ValueError ("Provider '" ++ provider_name ++ "' not found in config. "
                       ++ "Available: " ++ py_join ", " (map fst (providers cfg))))
  | Some pc => construct env (select_kind (base_url pc)) pc
  end.

(** [await provider.complete(prompt, ...)] on whichever adapter was built. *)
Definition complete (auth : string -> string * string) (fallback_model : string)
  (srv : server) (p : provider) (prompt : string) (o : CallOptions)
  : M CompletionResult :=
  match p with
  | POpenAI q => OpenAI.complete srv q prompt o
  | PAnthropic q => Anthropic.complete auth fallback_model srv q prompt o
  | PHTTP q => HTTPAdapter.complete srv q prompt o
  end.

(** Build the adapter of kind [k], then run one completion with it. *)
Definition construct_and_complete (auth : string -> string * string)
  (fallback_model : string) (env : environ) (srv : server) (k : adapter_kind)
  (c : ProviderConfig) (prompt : string) (o : CallOptions) : M CompletionResult :=
  p <-m lift (construct env k c) ;;
  complete auth fallback_model srv p prompt o.

End Cli.

(** ** Python string helpers used by the commands and the mock server.
    Characters are code points below 256; whitespace is what [str.isspace]
    accepts in that range. *)

Definition py_isspace (c : ascii) : bool :=
  let n := nat_of_ascii c in
  ((9 <=? n)%nat && (n <=? 13)%nat) || ((28 <=? n)%nat && (n <=? 32)%nat)
  || (n =? 133)%nat || (n =? 160)%nat.




(** [s.split()]: runs of whitespace separate words; no empty words. *)
Fixpoint split_aux (s cur : string) : list string :=
  match s with
  | EmptyString => if String.eqb cur "" then [] else [cur]
  | String c t =>
      if py_isspace c then
        (if String.eqb cur "" then split_aux t "" else cur :: split_aux t "")
      else split_aux t (cur ++ String c EmptyString)
  end.

Definition py_split (s : string) : list string := split_aux s "".

(** [str(n)] for an integer. *)
Fixpoint dec_digits (fuel : nat) (n : Z) (acc : string) : string :=
  match fuel with
  | O => acc
  | S f =>
      let c := ascii_of_nat (48 + Z.to_nat (Z.modulo n 10)) in
      let q := Z.div n 10 in
      if Z.eqb q 0 then String c acc else dec_digits f q (String c acc)
  end.

Definition py_str_int (n : Z) : string :=
  let digits := dec_digits (S (Z.to_nat (Z.log2 (Z.abs n)))) (Z.abs n) "" in
  if (n <? 0)%Z then "-" ++ digits else digits.


(** ** dev/mock_mcp/server.py *)
Module MockServer.

(** [CompletionRequest]: the native form of each field (other inputs are
    rejected; pydantic's lax coercions are not modelled).  Returns [input]. *)
Definition validate_request (body : pyval) : option string :=
  match body with
  | PDict d =>
      match dict_lookup "model" d, dict_lookup "input" d with
      | Some (PStr _), Some (PStr inp) =>
          let mt_ok := match dict_lookup "max_tokens" d with
                       | None | Some (PInt _) => true | _ => false end in
          let st_ok := match dict_lookup "stream" d with
                       | None | Some (PBool _) => true | _ => false end in
          let t_ok := match dict_lookup "temperature" d with
                      | None | Some PNone | Some (PInt _) => true | _ => false end in
          if mt_ok && st_ok && t_ok then Some inp else None
      | _, _ => None
      end
  | _ => None
  end.

(** [create_completion]; [hash] is Python's per-process string hash. *)
Definition create_completion (hash : string -> Z) (input : string) : pyval :=
  let output := "Mock response to: " ++ input in
  let prompt_tokens := Z.of_nat (length (py_split input)) in
  let completion_tokens := Z.of_nat (length (py_split output)) in
  PDict [("id", PStr ("mock-" ++ py_str_int (Z.modulo (hash input) 10000)));
         ("output", PStr output);
         ("token_usage", PDict [("prompt", PInt prompt_tokens);
                                ("completion", PInt completion_tokens)])].

(** The app served at [base]: POST [/v1/completions]; a body failing
    validation gets status 422 (its error details are not modelled), any
    other route 404. *)
Definition app (hash : string -> Z) (base : string) : server :=
  fun r =>
    if String.eqb (req_url r) (base ++ "/v1/completions") then
      match validate_request (req_json r) with
      | Some inp => HttpResponse 200 (Some (create_completion hash inp))
      | None => HttpResponse 422 (Some (PDict [("detail", PList [])]))
      end
    else HttpResponse 404 (Some (PDict [("detail", PStr "Not Found")])).

End MockServer.

(** ** agent/cli.py: the commands *)
Module Commands.

(** The request each adapter sends. *)
Definition request_of (auth : string -> string * string) (fallback_model : string)
  (p : Cli.provider) (prompt : string) (o : CallOptions) : request :=
  match p with
  | Cli.POpenAI q => OpenAI.request_of q prompt o
  | Cli.PAnthropic q => Anthropic.request_of auth fallback_model q prompt o
  | Cli.PHTTP q => HTTPAdapter.request_of q prompt o
  end.

(** [init]: an existing file is kept unless [force]. *)
Definition init (Y : YamlLib) (home : string) (fs : fs_state Y)
  (config_path : option string) (force : bool) : fs_state Y :=
  let p := match config_path with Some p => p | None => get_config_path home end in
  match fs p with
  | Some _ => if force then save Y home create_default_config (Some p) fs else fs
  | None => save Y home create_default_config (Some p) fs
  end.

(** [_call]: any exception ends the command with [sys.exit(1)]. *)
Definition call (Y : YamlLib) (home : string) (fs : fs_state Y) (env : environ)
  (auth : string -> string * string) (fallback_model : string) (srv : server)
  (prompt : string) (provider_name config_path model : option string)
  (max_tokens : option Z) : M CompletionResult :=
  config <-m lift (load Y home fs config_path) ;;
  let name := py_or_default truthy_str provider_name (default_provider config) in
  provider <-m lift (Cli.get_provider env name config) ;;
  Cli.complete auth fallback_model srv provider prompt
    {| opt_model := model; opt_max_tokens := max_tokens; opt_temperature := None |}.

Definition exit_code {A} (r : res A) : Z := match r with Ok _ => 0 | Err _ => 1 end.




Definition test_prompt : string := "Say 'Hello from agent!' and nothing else.".

Definition test_options : CallOptions :=
  {| opt_model := None; opt_max_tokens := Some 50%Z; opt_temperature := None |}.



End Commands.

(** * Notions used in the statements *)

Definition is_substring (needle hay : string) : Prop :=
  exists pre suf, hay = pre ++ needle ++ suf.

Inductive session_op : Type :=
| AddUser (c : string)
| AddAssistant (c : string).

Definition apply_op (s : Session.Session) (op : session_op) : Session.Session :=
  match op with
  | AddUser c => Session.add_user_message s c
  | AddAssistant c => Session.add_assistant_message s c
  end.

Definition run_ops (ops : list session_op) : Session.Session :=
  fold_left apply_op ops Session.new.

(** The message each call appends, and the line it renders to. *)
Definition message_of (op : session_op) : Session.Message :=
  match op with
  | AddUser c => {| Session.role := "user"; Session.content := c |}
  | AddAssistant c => {| Session.role := "assistant"; Session.content := c |}
  end.

Definition line_of (op : session_op) : string :=
  match op with
  | AddUser c => "User: " ++ c
  | AddAssistant c => "Assistant: " ++ c
  end.

(** [d.get(k, default)] on the entries of a dict. *)
Definition get_or (d : list (string * pyval)) (k : string) (default : pyval) : pyval :=
  match dict_lookup k d with Some v => v | None => default end.

(** The concrete inputs of the test suite (tests/test_providers.py). *)
Definition openai_test_config : ProviderConfig :=
  {| base_url := "https://api.openai.com"; api_key_env := Some "OPENAI_API_KEY";
     Config.model := Some "gpt-4o-mini"; max_tokens := None; timeout := 60 |}.

Definition openai_test_provider : OpenAI.OpenAIProvider :=
  {| OpenAI.config := openai_test_config; OpenAI.api_key := "test-key" |}.

Definition openai_test_response : list (string * pyval) :=
  [("id", PStr "test-123"); ("model", PStr "gpt-4o-mini");
   ("choices", PList [PDict [("message", PDict [("content", PStr "Hello, world!")])]]);
   ("usage", PDict [("prompt_tokens", PInt 10); ("completion_tokens", PInt 5);
                    ("total_tokens", PInt 15)])].

(** A remote end answering every request with status 200 and [body]. *)
Definition answer (body : pyval) : server := fun _ => HttpResponse 200 (Some body).

(** The "openai" entry of the default configuration. *)
Definition openai_test_config' : ProviderConfig :=
  {| base_url := "https://api.openai.com"; api_key_env := Some "OPENAI_API_KEY";
     Config.model := Some "gpt-4"; max_tokens := Some 1024%Z; timeout := 60 |}.

Definition no_env : environ := fun _ => None.

(** The credential resolves to a secret: a non-empty value. *)
Definition credential_resolves (env : environ) (c : ProviderConfig) : bool :=
  match get_api_key env c with Some s => negb (String.eqb s "") | None => false end.

Definition missing_key_config : ProviderConfig :=
  {| base_url := "https://api.openai.com"; api_key_env := Some "MISSING_KEY";
     Config.model := None; max_tokens := None; timeout := 60 |}.

(** The generic adapter succeeds or fails on the [token_usage] field alone. *)
Definition usage_ok (d : list (string * pyval)) : bool :=
  match HTTPAdapter.usage_of (get_or d "token_usage" (PDict [])) with
  | Ok _ => true
  | Err _ => false
  end.

Definition local_test_config : ProviderConfig :=
  {| base_url := "http://localhost:8080"; api_key_env := None;
     Config.model := Some "local-model"; max_tokens := None; timeout := 60 |}.

Definition local_test_provider : HTTPAdapter.HTTPProvider :=
  {| HTTPAdapter.config := local_test_config |}.

(** A field of a request's JSON payload. *)
Definition payload_field (r : request) (k : string) : option pyval :=
  match req_json r with PDict d => dict_lookup k d | _ => None end.

(** The configured value when it is set and non-zero (non-empty), else the
    hardcoded fallback. *)
Definition config_or_int (c : option Z) (fallback : Z) : Z :=
  match c with Some n => if Z.eqb n 0 then fallback else n | None => fallback end.

Definition config_or_str (c : option string) (fallback : string) : string :=
  match c with Some s => if String.eqb s "" then fallback else s | None => fallback end.

Definition falsy_options : CallOptions :=
  {| opt_model := Some ""; opt_max_tokens := Some 0%Z; opt_temperature := None |}.

(** Bodies for the usage claims. *)
Definition local_test_response : list (string * pyval) :=
  [("id", PStr "local-789"); ("output", PStr "Response from local MCP");
   ("token_usage", PDict [("prompt", PInt 12); ("completion", PInt 8)])].

Definition anthropic_test_response : list (string * pyval) :=
  [("id", PStr "test-456"); ("model", PStr "claude-3-haiku-20240307");
   ("content", PList [PDict [("text", PStr "Greetings!")]]);
   ("usage", PDict [("input_tokens", PInt 8); ("output_tokens", PInt 3)])].

Definition anthropic_test_provider : Anthropic.AnthropicProvider :=
  {| Anthropic.config :=
       {| base_url := "https://api.anthropic.com"; api_key_env := Some "ANTHROPIC_API_KEY";
          Config.model := Some "claude-3-haiku-20240307"; max_tokens := None;
          timeout := 60 |};
     Anthropic.api_key := "test-key" |}.

Definition test_auth (k : string) : string * string := ("x-api-key", k).

Definition openai_response_without_usage : list (string * pyval) :=
  [("id", PStr "test-123"); ("model", PStr "gpt-4o-mini");
   ("choices", PList [PDict [("message", PDict [("content", PStr "Hello, world!")])]])].

Definition local_response_without_usage : list (string * pyval) :=
  [("id", PStr "local-789"); ("output", PStr "Response from local MCP")].

(** A YAML library whose documents are the values read back: dumping sorts
    mapping keys. *)
Definition Ysorted : YamlLib :=
  {| yaml_doc := pyval; safe_dump := sort_keys; safe_load := fun v => Ok v |}.

Definition no_files : fs_state Ysorted := fun _ => None.

Definition map_values {A B} (f : A -> B) (l : list (string * A)) : list (string * B) :=
  map (fun kv => (fst kv, f (snd kv))) l.

(** The file a command reads or writes: [config_path] or the default path. *)
Definition resolved_path (home : string) (path : option string) : string :=
  match path with Some p => p | None => get_config_path home end.

(** The configuration [init] writes, as it is loaded back: the example
    configuration with its provider names sorted. *)
Definition initial_config : AgentConfig :=
  {| default_provider := "openai";
     providers := sort_entries (providers create_default_config) |}.




(** The requests the [test] command sends: one for each provider whose adapter
    can be built, in the order of the names. *)
Definition test_requests (env : environ) (auth : string -> string * string)
  (fallback_model : string) (cfg : AgentConfig) (names : list string) : list request :=
  flat_map (fun name =>
              match Cli.get_provider env name cfg with
              | Ok p => [Commands.request_of auth fallback_model p Commands.test_prompt
                           Commands.test_options]
              | Err _ => []
              end) names.

(** A generic adapter on the "local_mcp" entry of the example configuration. *)
Definition local_mcp_provider : HTTPAdapter.HTTPProvider :=
  {| HTTPAdapter.config :=
       {| base_url := "http://localhost:8080"; api_key_env := None;
          Config.model := Some "local-model"; max_tokens := Some 1024%Z;
          timeout := 60 |} |}.

(** * Properties *)

(** ** Facts about the Python primitives *)

Lemma prefix_spec : forall s1 s2,
  String.prefix s1 s2 = true <-> exists suf, s2 = s1 ++ suf.
Proof.
  induction s1 as [|a s1 IH]; intros s2.
  - split; [intros _; exists s2; reflexivity | intros _; now destruct s2].
  - destruct s2 as [|b s2]; simpl.
    + split; [discriminate | intros [suf H]; discriminate].
    + destruct (ascii_dec a b) as [<-|Hne].
      * rewrite IH. split; intros [suf H]; exists suf.
        -- now rewrite H.
        -- now injection H.
      * split; [discriminate | intros [suf H]; injection H; intros; congruence].
Qed.

Lemma py_contains_spec : forall needle hay,
  py_contains needle hay = true <-> is_substring needle hay.
Proof.
  intros needle hay. induction hay as [|c hay IH]; cbn [py_contains].
  - rewrite prefix_spec. split.
    + intros [suf H]. exists EmptyString, suf. exact H.
    + intros [pre [suf H]]. destruct pre as [|x pre]; simpl in H.
      * exists suf. exact H.
      * discriminate.
  - rewrite Bool.orb_true_iff, prefix_spec, IH. split.
    + intros [[suf H] | [pre [suf H]]].
      * exists EmptyString, suf. exact H.
      * exists (String c pre), suf. simpl. now rewrite H.
    + intros [pre [suf H]]. destruct pre as [|x pre]; simpl in H.
      * left. exists suf. exact H.
      * right. injection H as -> H. exists pre, suf. exact H.
Qed.

Lemma py_contains_false : forall needle hay,
  ~ is_substring needle hay -> py_contains needle hay = false.
Proof.
  intros needle hay H. destruct (py_contains needle hay) eqn:E; [|reflexivity].
  exfalso. apply H. now apply py_contains_spec.
Qed.

Lemma post_success : forall srv r st data log,
  srv r = HttpResponse st (Some data) -> (200 <= st < 300)%Z ->
  post srv r log = (Ok data, (log ++ [r])%list).
Proof.
  intros srv r st data log Hs Hst. unfold post. rewrite Hs.
  replace ((200 <=? st)%Z && (st <? 300)%Z) with true; [reflexivity|].
  symmetry. apply andb_true_intro. split; [apply Z.leb_le | apply Z.ltb_lt]; lia.
Qed.

Lemma post_log : forall srv r log, snd (post srv r log) = (log ++ [r])%list.
Proof.
  intros srv r log. unfold post.
  destruct (srv r) as [st [data|]|]; [destruct ((200 <=? st)%Z && (st <? 300)%Z)..|];
    reflexivity.
Qed.

Lemma bind_lift_log : forall {A B} (c : M A) (f : A -> res B) log,
  snd ((x <-m c ;; lift (f x)) log) = snd (c log).
Proof.
  intros A B c f log. unfold M_bind, lift. destruct (c log) as [[a|e] l]; reflexivity.
Qed.

(** ** Inversion of the adapters' response handling *)

Ltac res_steps H :=
  repeat match type of H with
  | context [res_bind ?r _] =>
      let E := fresh "E" in
      destruct r eqn:E; cbn [res_bind] in H; [|discriminate H]
  end.

Lemma bind_post_ok_inv : forall {A} srv r (f : pyval -> res A) log a log',
  (data <-m post srv r ;; lift (f data)) log = (Ok a, log') ->
  exists st data, srv r = HttpResponse st (Some data) /\ (200 <= st < 300)%Z /\
                  f data = Ok a.
Proof.
  intros A srv r f log a log' H. unfold M_bind, post, lift in H.
  destruct (srv r) as [st [data|]|]; [|destruct ((200 <=? st)%Z && (st <? 300)%Z)|];
    try discriminate H.
  destruct ((200 <=? st)%Z && (st <? 300)%Z) eqn:Est; [|discriminate H].
  apply andb_true_iff in Est as [E1 E2]. apply Z.leb_le in E1. apply Z.ltb_lt in E2.
  injection H as H _. exists st, data. repeat split; auto.
Qed.

Lemma http_parse_usage : forall m data r u,
  HTTPAdapter.parse m data = Ok r -> usage r = Some u ->
  exists d tu, data = PDict d /\ dict_lookup "token_usage" d = Some (PDict tu) /\
    prompt_tokens u = get_or tu "prompt" (PInt 0) /\
    completion_tokens u = get_or tu "completion" (PInt 0) /\
    py_add (prompt_tokens u) (completion_tokens u) = Ok (total_tokens u).
Proof.
  intros m data r u H Hu.
  destruct data as [| | | | |d]; try discriminate H.
  unfold HTTPAdapter.parse, py_get in H. cbn [res_bind] in H. res_steps H.
  injection H as <-. cbn in Hu. subst.
  unfold HTTPAdapter.usage_of in E.
  destruct (dict_lookup "token_usage" d) as [tv|] eqn:El; [|discriminate E].
  destruct (truthy tv); [|discriminate E].
  destruct tv as [| | | | |tu]; try discriminate E.
  unfold py_get in E. cbn [res_bind] in E.
  destruct (py_add _ _) as [t|] eqn:Ea; [|discriminate E].
  injection E as <-. exists d, tu. cbn. unfold get_or. repeat split; auto.
Qed.

Lemma http_parse_no_usage : forall m d,
  dict_lookup "token_usage" d = None ->
  exists r, HTTPAdapter.parse m (PDict d) = Ok r /\ usage r = None.
Proof.
  intros m d H. unfold HTTPAdapter.parse, py_get. rewrite H. cbn.
  eexists. split; reflexivity.
Qed.

Lemma anthropic_parse_usage : forall data r u,
  Anthropic.parse data = Ok r -> usage r = Some u ->
  exists d tu, data = PDict d /\ dict_lookup "usage" d = Some (PDict tu) /\
    prompt_tokens u = get_or tu "input_tokens" (PInt 0) /\
    completion_tokens u = get_or tu "output_tokens" (PInt 0) /\
    py_add (prompt_tokens u) (completion_tokens u) = Ok (total_tokens u).
Proof.
  intros data r u H Hu.
  destruct data as [| | | | |d]; try discriminate H.
  unfold Anthropic.parse in H. res_steps H.
  injection H as <-. cbn in Hu. subst.
  unfold py_get in *.
  injection E2 as <-.
  destruct (dict_lookup "usage" d) as [tv|] eqn:El; [|discriminate E3].
  destruct (truthy tv); [|discriminate E3].
  destruct tv as [| | | | |tu]; try discriminate E3.
  cbn [res_bind] in E3.
  destruct (py_add _ _) as [t|] eqn:Ea; [|discriminate E3].
  injection E3 as <-. exists d, tu. cbn. unfold get_or. repeat split; auto.
Qed.

Lemma anthropic_parse_no_usage : forall d r,
  dict_lookup "usage" d = None -> Anthropic.parse (PDict d) = Ok r -> usage r = None.
Proof.
  intros d r Hd H. unfold Anthropic.parse in H. res_steps H.
  injection H as <-. cbn. unfold py_get in *. rewrite Hd in E2.
  injection E2 as <-. cbn in E3. now injection E3 as <-.
Qed.

Lemma openai_parse_no_usage : forall d r,
  dict_lookup "usage" d = None -> OpenAI.parse (PDict d) = Ok r ->
  usage r = Some {| prompt_tokens := PInt 0; completion_tokens := PInt 0;
                    total_tokens := PInt 0 |}.
Proof.
  intros d r Hd H. unfold OpenAI.parse in H. res_steps H.
  injection H as <-. cbn. unfold py_get in *. rewrite Hd in E3.
  injection E3 as <-. cbn in *.
  injection E4 as <-. injection E5 as <-. injection E6 as <-. reflexivity.
Qed.

(** ** Configuration persistence *)

Lemma map_pair_values : forall {A B} (f : A -> B) (l : list (string * A)),
  map (fun '(k, x) => (k, f x)) l = map_values f l.
Proof.
  intros A B f l. unfold map_values. apply map_ext. now intros [k x].
Qed.

Lemma insert_entry_map : forall {A B} (f : A -> B) e l,
  insert_entry (fst e, f (snd e)) (map_values f l) = map_values f (insert_entry e l).
Proof.
  intros A B f e l. induction l as [|e' l IH]; [reflexivity|].
  change (map_values f (e' :: l)) with ((fst e', f (snd e')) :: map_values f l).
  cbn [insert_entry fst snd].
  destruct (String.leb (fst e) (fst e')); [reflexivity|].
  rewrite IH. reflexivity.
Qed.

Lemma sort_entries_map : forall {A B} (f : A -> B) l,
  sort_entries (map_values f l) = map_values f (sort_entries l).
Proof.
  intros A B f l. unfold sort_entries. induction l as [|e l IH]; [reflexivity|].
  change (map_values f (e :: l)) with ((fst e, f (snd e)) :: map_values f l).
  cbn [fold_right]. rewrite IH. apply insert_entry_map.
Qed.

Lemma insert_entry_perm : forall {A} (e : string * A) l,
  Permutation (insert_entry e l) (e :: l).
Proof.
  intros A e l. induction l as [|e' l IH]; cbn; [reflexivity|].
  destruct (String.leb (fst e) (fst e')); [reflexivity|].
  rewrite IH. apply perm_swap.
Qed.

Lemma sort_entries_perm : forall {A} (l : list (string * A)),
  Permutation (sort_entries l) l.
Proof.
  intros A l. unfold sort_entries. induction l as [|e l IH]; cbn; [reflexivity|].
  rewrite insert_entry_perm. now apply perm_skip.
Qed.

Lemma validate_dumped_ProviderConfig : forall c,
  validate_ProviderConfig (sort_keys (dump_ProviderConfig c)) = Ok c.
Proof.
  intros [b k m mt t].
  destruct k, m, mt; reflexivity.
Qed.

Lemma validate_providers_dumped : forall l,
  validate_providers (map_values (fun pc => sort_keys (dump_ProviderConfig pc)) l) = Ok l.
Proof.
  induction l as [|[k pc] l IH]; [reflexivity|].
  change (map_values (fun pc => sort_keys (dump_ProviderConfig pc)) ((k, pc) :: l))
    with ((k, sort_keys (dump_ProviderConfig pc))
            :: map_values (fun pc => sort_keys (dump_ProviderConfig pc)) l).
  cbn [validate_providers]. rewrite validate_dumped_ProviderConfig. cbn [res_bind].
  rewrite IH. reflexivity.
Qed.

Lemma sort_keys_dict : forall d,
  sort_keys (PDict d) = PDict (sort_entries (map_values sort_keys d)).
Proof.
  intros d. cbn [sort_keys]. now rewrite map_pair_values.
Qed.

Lemma map_values_cons : forall {A B} (f : A -> B) k x l,
  map_values f ((k, x) :: l) = (k, f x) :: map_values f l.
Proof. reflexivity. Qed.

Lemma map_values_compose : forall {A B C} (f : B -> C) (g : A -> B) l,
  map_values f (map_values g l) = map_values (fun x => f (g x)) l.
Proof.
  intros A B C f g l. unfold map_values. now rewrite map_map.
Qed.

Lemma load_after_save : forall (Y : YamlLib),
  (forall v, safe_load Y (safe_dump Y v) = Ok (sort_keys v)) ->
  forall home fs path c,
  load Y home (save Y home c path fs) path
  = Ok {| default_provider := default_provider c;
          providers := sort_entries (providers c) |}.
Proof.
  intros Y HY home fs path c. unfold load, save. rewrite String.eqb_refl, HY.
  unfold model_dump. rewrite (map_pair_values dump_ProviderConfig).
  rewrite sort_keys_dict, !map_values_cons.
  rewrite sort_keys_dict, map_values_compose, sort_entries_map.
  remember (map_values (fun pc => sort_keys (dump_ProviderConfig pc))
              (sort_entries (providers c))) as pd eqn:Hpd.
  cbn. subst pd. rewrite validate_providers_dumped. reflexivity.
Qed.

(** ** Session *)

(** ** Session *)

Lemma fold_apply_op : forall ops s,
  Session.messages (fold_left apply_op ops s)
  = (Session.messages s ++ map message_of ops)%list.
Proof.
  induction ops as [|op ops IH]; intros s; simpl.
  - now rewrite app_nil_r.
  - rewrite IH. destruct op; simpl; now rewrite <- app_assoc.
Qed.

Lemma fold_lines : forall (msgs : list Session.Message) acc,
  fold_left (fun lines msg =>
               app lines [(if String.eqb (Session.role msg) "user" then "User:"
                           else "Assistant:") ++ " " ++ Session.content msg])
            msgs acc
  = app acc (map (fun msg => (if String.eqb (Session.role msg) "user" then "User:"
                             else "Assistant:") ++ " " ++ Session.content msg) msgs).
Proof.
  induction msgs as [|m msgs IH]; intros acc; simpl.
  - now rewrite app_nil_r.
  - rewrite IH. now rewrite <- app_assoc.
Qed.

Lemma py_join_concat : forall sep l, py_join sep l = String.concat sep l.
Proof.
  intros sep l. induction l as [|x [|y l] IH]; try reflexivity.
Qed.

(** ** Claims *)

(** C7: on a fresh Session, [get_history] returns the appended messages in call
    order with the role of the method used, and [format_for_display] renders
    them as "User: ..." / "Assistant: ..." lines joined by newlines; in
    particular for "Hello" then "Hi there!". *)
Theorem session_history_and_display :
  (forall ops,
     Session.get_history (run_ops ops) = map message_of ops /\
     Session.format_for_display (run_ops ops) = String.concat nl (map line_of ops)) /\
  (let s := Session.add_assistant_message
              (Session.add_user_message Session.new "Hello") "Hi there!" in
   Session.get_history s =
     [{| Session.role := "user"; Session.content := "Hello" |};
      {| Session.role := "assistant"; Session.content := "Hi there!" |}] /\
   Session.format_for_display s = "User: Hello" ++ nl ++ "Assistant: Hi there!").
Proof.
  split; [|cbv zeta; split; reflexivity].
  intros ops. unfold run_ops, Session.get_history, Session.format_for_display.
  rewrite fold_apply_op. simpl app. split; [reflexivity|].
  rewrite fold_lines, py_join_concat. simpl app. rewrite map_map.
  f_equal. apply map_ext. intros [c|c]; reflexivity.
Qed.

(** C1: on a well-formed OpenAI-style body, [complete] returns the first
    choice's message content as text, echoes [id] and [model], and builds the
    usage from [prompt_tokens]/[completion_tokens]/[total_tokens], a missing
    field counting 0. *)
Theorem openai_complete_response_mapping :
  forall srv p prompt o log st data rest c0 msg txt i m ud,
  srv (OpenAI.request_of p prompt o) = HttpResponse st (Some (PDict data)) ->
  (200 <= st < 300)%Z ->
  dict_lookup "choices" data = Some (PList (PDict c0 :: rest)) ->
  dict_lookup "message" c0 = Some (PDict msg) ->
  dict_lookup "content" msg = Some txt ->
  dict_lookup "id" data = Some i ->
  dict_lookup "model" data = Some m ->
  (dict_lookup "usage" data = Some (PDict ud) \/
   (dict_lookup "usage" data = None /\ ud = [])) ->
  OpenAI.complete srv p prompt o log =
  (Ok {| id := i; text := txt; Base.model := m;
         usage := Some {| prompt_tokens := get_or ud "prompt_tokens" (PInt 0);
                          completion_tokens := get_or ud "completion_tokens" (PInt 0);
                          total_tokens := get_or ud "total_tokens" (PInt 0) |} |},
   (log ++ [OpenAI.request_of p prompt o])%list).
Proof.
  intros srv p prompt o log st data rest c0 msg txt i m ud
    Hsrv Hst Hch Hmsg Hc Hi Hm Hu.
  unfold OpenAI.complete, M_bind. rewrite (post_success _ _ _ _ _ Hsrv Hst).
  unfold lift, OpenAI.parse, py_getitem, py_get, get_or.
  rewrite Hch. cbn. rewrite Hmsg. cbn. rewrite Hc. cbn.
  destruct Hu as [Hu | [Hu ->]]; rewrite Hu; cbn; rewrite Hi; cbn; rewrite Hm; reflexivity.
Qed.

Lemma openai_complete_response_mapping_witness :
  OpenAI.complete (answer (PDict openai_test_response)) openai_test_provider
    "Test prompt" no_options [] =
  (Ok {| id := PStr "test-123"; text := PStr "Hello, world!";
         Base.model := PStr "gpt-4o-mini";
         usage := Some {| prompt_tokens := PInt 10; completion_tokens := PInt 5;
                          total_tokens := PInt 15 |} |},
   [OpenAI.request_of openai_test_provider "Test prompt" no_options]).
Proof.
  exact (openai_complete_response_mapping (answer (PDict openai_test_response))
           openai_test_provider "Test prompt" no_options [] 200 openai_test_response
           [] [("message", PDict [("content", PStr "Hello, world!")])]
           [("content", PStr "Hello, world!")] (PStr "Hello, world!")
           (PStr "test-123") (PStr "gpt-4o-mini")
           [("prompt_tokens", PInt 10); ("completion_tokens", PInt 5);
            ("total_tokens", PInt 15)]
           eq_refl (conj (Z.le_refl 200) eq_refl) eq_refl eq_refl eq_refl eq_refl eq_refl
           (or_introl eq_refl)).
Defined.

(** C3: the dispatcher builds the adapter chosen by substring search in the
    lowercased base URL: "openai.com" first, then "anthropic.com", otherwise
    the generic-HTTP adapter. *)
Theorem get_provider_dispatch : forall env name cfg pc,
  Config.get_provider cfg (Some name) = Some pc ->
  let u := py_lower (base_url pc) in
  (is_substring "openai.com" u ->
     Cli.get_provider env name cfg = Cli.construct env Cli.OpenAIKind pc) /\
  (~ is_substring "openai.com" u -> is_substring "anthropic.com" u ->
     Cli.get_provider env name cfg = Cli.construct env Cli.AnthropicKind pc) /\
  (~ is_substring "openai.com" u -> ~ is_substring "anthropic.com" u ->
     Cli.get_provider env name cfg = Cli.construct env Cli.HTTPKind pc).
Proof.
  intros env name cfg pc Hpc u.
  unfold Cli.get_provider. rewrite Hpc. unfold Cli.select_kind. fold u.
  split; [|split].
  - intros H. apply py_contains_spec in H. now rewrite H.
  - intros H1 H2. apply py_contains_spec in H2.
    now rewrite (py_contains_false _ _ H1), H2.
  - intros H1 H2. now rewrite (py_contains_false _ _ H1), (py_contains_false _ _ H2).
Qed.

Lemma get_provider_dispatch_witness :
  Config.get_provider create_default_config (Some "openai")
    = Some openai_test_config' /\
  Cli.get_provider no_env "openai" create_default_config
    = Cli.construct no_env Cli.OpenAIKind openai_test_config'.
Proof.
  split; [reflexivity|].
  apply (proj1 (get_provider_dispatch no_env "openai" create_default_config
                  openai_test_config' eq_refl)).
  exists "https://api.", EmptyString. reflexivity.
Defined.

(** C4: the OpenAI-style and Anthropic-style constructors fail with the
    missing-credential error when the credential variable does not resolve to
    a secret, so a construction followed by [complete] sends no request; the
    generic-HTTP constructor always succeeds. *)
Theorem construct_requires_credential : forall env pc,
  credential_resolves env pc = false ->
  (forall k, k = Cli.OpenAIKind \/ k = Cli.AnthropicKind ->
     Cli.construct env k pc = Err (ValueError (OpenAI.missing_key_msg pc)) /\
     (forall auth fallback_model srv prompt o log,
        Cli.construct_and_complete auth fallback_model env srv k pc prompt o log
        = (Err (ValueError (OpenAI.missing_key_msg pc)), log))) /\
  (forall env', exists q, Cli.construct env' Cli.HTTPKind pc = Ok q).
Proof.
  intros env pc Hres. split.
  - assert (Hk : truthy_str (get_api_key env pc) = false).
    { unfold credential_resolves in Hres. unfold truthy_str.
      destruct (get_api_key env pc); assumption. }
    intros k [-> | ->]; cbn;
      [unfold OpenAI.init | unfold Anthropic.init]; rewrite Hk; cbn; split; reflexivity.
  - intros env'. eexists. reflexivity.
Qed.

Lemma construct_requires_credential_witness :
  credential_resolves no_env missing_key_config = false /\
  Cli.construct no_env Cli.AnthropicKind missing_key_config
  = Err (ValueError "API key not found. Set environment variable: MISSING_KEY").
Proof.
  split; [reflexivity|].
  exact (proj1 (proj1 (construct_requires_credential no_env missing_key_config eq_refl)
                  Cli.AnthropicKind (or_intror eq_refl))).
Defined.

(** C5: on a JSON-object body the generic-HTTP adapter's success does not
    depend on [output] or [id]: it fails only through [token_usage]; a missing
    [output] gives the text "" and a missing [id] the id "unknown". *)
Theorem http_complete_tolerates_missing_fields : forall srv q prompt o log st d,
  srv (HTTPAdapter.request_of q prompt o) = HttpResponse st (Some (PDict d)) ->
  (200 <= st < 300)%Z ->
  snd (HTTPAdapter.complete srv q prompt o log)
    = (log ++ [HTTPAdapter.request_of q prompt o])%list /\
  ((exists c, fst (HTTPAdapter.complete srv q prompt o log) = Ok c)
     <-> usage_ok d = true) /\
  (forall c, fst (HTTPAdapter.complete srv q prompt o log) = Ok c ->
     (dict_lookup "output" d = None -> text c = PStr "") /\
     (dict_lookup "id" d = None -> id c = PStr "unknown")).
Proof.
  intros srv q prompt o log st d Hsrv Hst.
  unfold HTTPAdapter.complete, M_bind. rewrite (post_success _ _ _ _ _ Hsrv Hst).
  unfold lift, HTTPAdapter.parse, py_get, usage_ok, get_or. cbn [res_bind fst snd].
  destruct (HTTPAdapter.usage_of _) as [u|e]; cbn.
  - split; [reflexivity|]. split.
    + split; [reflexivity | intros _; eexists; reflexivity].
    + intros c Hc. injection Hc as <-. cbn.
      split; intros H; rewrite H; reflexivity.
  - split; [reflexivity|]. split.
    + split; [intros [c Hc]; discriminate | discriminate].
    + intros c Hc. discriminate.
Qed.

Lemma http_complete_tolerates_missing_fields_witness :
  (200 <= 200 < 300)%Z /\
  fst (HTTPAdapter.complete
         (answer (PDict [("token_usage", PDict [("prompt", PInt 12); ("completion", PInt 8)])]))
         local_test_provider "Test prompt" no_options [])
  = Ok {| id := PStr "unknown"; text := PStr ""; Base.model := PStr "local-model";
          usage := Some {| prompt_tokens := PInt 12; completion_tokens := PInt 8;
                           total_tokens := PInt 20 |} |} /\
  (forall c,
     fst (HTTPAdapter.complete
            (answer (PDict [("token_usage", PDict [("prompt", PInt 12); ("completion", PInt 8)])]))
            local_test_provider "Test prompt" no_options []) = Ok c ->
     (dict_lookup "output"
        [("token_usage", PDict [("prompt", PInt 12); ("completion", PInt 8)])] = None ->
      text c = PStr "") /\
     (dict_lookup "id"
        [("token_usage", PDict [("prompt", PInt 12); ("completion", PInt 8)])] = None ->
      id c = PStr "unknown")).
Proof.
  split; [lia|]. split; [reflexivity|].
  exact (proj2 (proj2 (http_complete_tolerates_missing_fields
    (answer (PDict [("token_usage", PDict [("prompt", PInt 12); ("completion", PInt 8)])]))
    local_test_provider "Test prompt" no_options [] 200%Z
    [("token_usage", PDict [("prompt", PInt 12); ("completion", PInt 8)])]
    eq_refl (conj (Z.le_refl 200) eq_refl)))).
Defined.

(** C10: in the OpenAI-style and generic-HTTP adapters an explicit
    [max_tokens] of 0 or an explicit empty model is ignored: the request sent
    carries the configured value, else the hardcoded fallback. *)
Theorem falsy_overrides_fall_through :
  (forall srv p prompt o log,
     snd (OpenAI.complete srv p prompt o log)
       = (log ++ [OpenAI.request_of p prompt o])%list /\
     (opt_max_tokens o = Some 0%Z ->
        payload_field (OpenAI.request_of p prompt o) "max_tokens"
        = Some (PInt (config_or_int (max_tokens (OpenAI.config p)) 1024))) /\
     (opt_model o = Some "" ->
        payload_field (OpenAI.request_of p prompt o) "model"
        = Some (PStr (config_or_str (Config.model (OpenAI.config p)) "gpt-4o-mini")))) /\
  (forall srv q prompt o log,
     snd (HTTPAdapter.complete srv q prompt o log)
       = (log ++ [HTTPAdapter.request_of q prompt o])%list /\
     (opt_max_tokens o = Some 0%Z ->
        payload_field (HTTPAdapter.request_of q prompt o) "max_tokens"
        = Some (PInt (config_or_int (max_tokens (HTTPAdapter.config q)) 1024))) /\
     (opt_model o = Some "" ->
        payload_field (HTTPAdapter.request_of q prompt o) "model"
        = Some (PStr (config_or_str (Config.model (HTTPAdapter.config q)) "default")))).
Proof.
  split; intros srv p prompt o log; split; only 1, 3 :
    (unfold OpenAI.complete, HTTPAdapter.complete; rewrite bind_lift_log; apply post_log);
    split; intros Hm;
    unfold payload_field, OpenAI.request_of, HTTPAdapter.request_of,
      OpenAI.payload, HTTPAdapter.payload, HTTPAdapter.payload_model, temperature_field;
    cbn [req_json]; rewrite Hm;
    unfold py_or_default, py_or, config_or_int, config_or_str, truthy_int, truthy_str;
    destruct (opt_temperature o); cbn;
    first [destruct (max_tokens _) as [n|] | destruct (Config.model _) as [s|]];
    cbn; try reflexivity;
    first [destruct (Z.eqb n 0) | destruct (String.eqb s "")]; reflexivity.
Qed.

Lemma falsy_overrides_fall_through_witness :
  payload_field (OpenAI.request_of openai_test_provider "Test prompt" falsy_options)
    "max_tokens" = Some (PInt 1024) /\
  payload_field (HTTPAdapter.request_of local_test_provider "Test prompt" falsy_options)
    "model" = Some (PStr "local-model").
Proof.
  split.
  - exact (proj1 (proj2 (proj1 falsy_overrides_fall_through
             (answer PNone) openai_test_provider "Test prompt" falsy_options []))
             eq_refl).
  - exact (proj2 (proj2 (proj2 falsy_overrides_fall_through
             (answer PNone) local_test_provider "Test prompt" falsy_options []))
             eq_refl).
Defined.

(** C6: whenever the Anthropic-style or generic-HTTP adapter returns a usage,
    its total is the sum (Python [+]) of the two components read from the raw
    response ([input_tokens]/[output_tokens], [prompt]/[completion]), a
    missing component counting 0; for integer components it is their sum. *)
Theorem usage_total_is_sum :
  (forall srv q prompt o log r log' u,
     HTTPAdapter.complete srv q prompt o log = (Ok r, log') -> usage r = Some u ->
     exists st d tu,
       srv (HTTPAdapter.request_of q prompt o) = HttpResponse st (Some (PDict d)) /\
       dict_lookup "token_usage" d = Some (PDict tu) /\
       prompt_tokens u = get_or tu "prompt" (PInt 0) /\
       completion_tokens u = get_or tu "completion" (PInt 0) /\
       py_add (prompt_tokens u) (completion_tokens u) = Ok (total_tokens u) /\
       (forall a b, prompt_tokens u = PInt a -> completion_tokens u = PInt b ->
          total_tokens u = PInt (a + b))) /\
  (forall auth fallback_model srv q prompt o log r log' u,
     Anthropic.complete auth fallback_model srv q prompt o log = (Ok r, log') ->
     usage r = Some u ->
     exists st d tu,
       srv (Anthropic.request_of auth fallback_model q prompt o)
         = HttpResponse st (Some (PDict d)) /\
       dict_lookup "usage" d = Some (PDict tu) /\
       prompt_tokens u = get_or tu "input_tokens" (PInt 0) /\
       completion_tokens u = get_or tu "output_tokens" (PInt 0) /\
       py_add (prompt_tokens u) (completion_tokens u) = Ok (total_tokens u) /\
       (forall a b, prompt_tokens u = PInt a -> completion_tokens u = PInt b ->
          total_tokens u = PInt (a + b))).
Proof.
  split.
  - intros srv q prompt o log r log' u H Hu.
    apply bind_post_ok_inv in H as (st & data & Hsrv & _ & Hp).
    destruct (http_parse_usage _ _ _ _ Hp Hu) as (d & tu & -> & Hl & Hp1 & Hc1 & Ha).
    exists st, d, tu. repeat split; auto.
    intros a b Ea Eb. rewrite Ea, Eb in Ha. cbn in Ha. now injection Ha.
  - intros auth fallback_model srv q prompt o log r log' u H Hu.
    apply bind_post_ok_inv in H as (st & data & Hsrv & _ & Hp).
    destruct (anthropic_parse_usage _ _ _ Hp Hu) as (d & tu & -> & Hl & Hp1 & Hc1 & Ha).
    exists st, d, tu. repeat split; auto.
    intros a b Ea Eb. rewrite Ea, Eb in Ha. cbn in Ha. now injection Ha.
Qed.

Lemma usage_total_is_sum_witness :
  (exists st d tu,
     answer (PDict local_test_response)
       (HTTPAdapter.request_of local_test_provider "Test prompt" no_options)
     = HttpResponse st (Some (PDict d)) /\
     dict_lookup "token_usage" d = Some (PDict tu) /\
     PInt 12 = get_or tu "prompt" (PInt 0) /\
     PInt 8 = get_or tu "completion" (PInt 0) /\
     py_add (PInt 12) (PInt 8) = Ok (PInt 20) /\
     (forall a b, PInt 12 = PInt a -> PInt 8 = PInt b -> PInt 20 = PInt (a + b))) /\
  (exists st d tu,
     answer (PDict anthropic_test_response)
       (Anthropic.request_of test_auth "claude-3-haiku-20240307" anthropic_test_provider
          "Test prompt" no_options)
     = HttpResponse st (Some (PDict d)) /\
     dict_lookup "usage" d = Some (PDict tu) /\
     PInt 8 = get_or tu "input_tokens" (PInt 0) /\
     PInt 3 = get_or tu "output_tokens" (PInt 0) /\
     py_add (PInt 8) (PInt 3) = Ok (PInt 11) /\
     (forall a b, PInt 8 = PInt a -> PInt 3 = PInt b -> PInt 11 = PInt (a + b))).
Proof.
  split.
  - exact (proj1 usage_total_is_sum (answer (PDict local_test_response))
             local_test_provider "Test prompt" no_options []
             {| id := PStr "local-789"; text := PStr "Response from local MCP";
                Base.model := PStr "local-model";
                usage := Some {| prompt_tokens := PInt 12; completion_tokens := PInt 8;
                                 total_tokens := PInt 20 |} |}
             [HTTPAdapter.request_of local_test_provider "Test prompt" no_options]
             {| prompt_tokens := PInt 12; completion_tokens := PInt 8;
                total_tokens := PInt 20 |}
             eq_refl eq_refl).
  - exact (proj2 usage_total_is_sum test_auth "claude-3-haiku-20240307"
             (answer (PDict anthropic_test_response))
             anthropic_test_provider "Test prompt" no_options []
             {| id := PStr "test-456"; text := PStr "Greetings!";
                Base.model := PStr "claude-3-haiku-20240307";
                usage := Some {| prompt_tokens := PInt 8; completion_tokens := PInt 3;
                                 total_tokens := PInt 11 |} |}
             [Anthropic.request_of test_auth "claude-3-haiku-20240307"
                anthropic_test_provider "Test prompt" no_options]
             {| prompt_tokens := PInt 8; completion_tokens := PInt 3;
                total_tokens := PInt 11 |}
             eq_refl eq_refl).
Defined.

(** C2 (counterexample): the OpenAI-style adapter returns a usage even when
    the response carries no usage data. *)
Lemma openai_usage_present_without_usage_field :
  exists r,
    fst (OpenAI.complete (answer (PDict openai_response_without_usage))
           openai_test_provider "Test prompt" no_options []) = Ok r /\
    usage r <> None.
Proof.
  eexists. split; [reflexivity|]. cbn. discriminate.
Qed.

(** C2 (amended): when the response omits usage data, the generic-HTTP and
    Anthropic-style adapters return no usage, while the OpenAI-style adapter
    returns a usage with all three counts 0. *)
Theorem usage_when_omitted :
  (forall srv q prompt o log st d,
     srv (HTTPAdapter.request_of q prompt o) = HttpResponse st (Some (PDict d)) ->
     (200 <= st < 300)%Z -> dict_lookup "token_usage" d = None ->
     exists r, HTTPAdapter.complete srv q prompt o log
               = (Ok r, (log ++ [HTTPAdapter.request_of q prompt o])%list) /\
               usage r = None) /\
  (forall auth fallback_model srv q prompt o log st d r log',
     srv (Anthropic.request_of auth fallback_model q prompt o)
       = HttpResponse st (Some (PDict d)) ->
     dict_lookup "usage" d = None ->
     Anthropic.complete auth fallback_model srv q prompt o log = (Ok r, log') ->
     usage r = None) /\
  (forall srv p prompt o log st d r log',
     srv (OpenAI.request_of p prompt o) = HttpResponse st (Some (PDict d)) ->
     dict_lookup "usage" d = None ->
     OpenAI.complete srv p prompt o log = (Ok r, log') ->
     usage r = Some {| prompt_tokens := PInt 0; completion_tokens := PInt 0;
                       total_tokens := PInt 0 |}).
Proof.
  split; [|split].
  - intros srv q prompt o log st d Hsrv Hst Hd.
    destruct (http_parse_no_usage (HTTPAdapter.payload_model q o) d Hd) as (r & Hp & Hu).
    exists r. split; [|exact Hu].
    unfold HTTPAdapter.complete, M_bind. rewrite (post_success _ _ _ _ _ Hsrv Hst).
    unfold lift. now rewrite Hp.
  - intros auth fallback_model srv q prompt o log st d r log' Hsrv Hd H.
    apply bind_post_ok_inv in H as (st' & data & Hsrv' & _ & Hp).
    rewrite Hsrv in Hsrv'. injection Hsrv' as _ <-.
    exact (anthropic_parse_no_usage d r Hd Hp).
  - intros srv p prompt o log st d r log' Hsrv Hd H.
    apply bind_post_ok_inv in H as (st' & data & Hsrv' & _ & Hp).
    rewrite Hsrv in Hsrv'. injection Hsrv' as _ <-.
    exact (openai_parse_no_usage d r Hd Hp).
Qed.

Lemma usage_when_omitted_witness :
  exists r,
    HTTPAdapter.complete (answer (PDict local_response_without_usage))
      local_test_provider "Test prompt" no_options []
    = (Ok r, [HTTPAdapter.request_of local_test_provider "Test prompt" no_options]) /\
    usage r = None.
Proof.
  exact (proj1 usage_when_omitted (answer (PDict local_response_without_usage))
           local_test_provider "Test prompt" no_options [] 200%Z
           local_response_without_usage eq_refl (conj (Z.le_refl 200) eq_refl) eq_refl).
Defined.

(** C8: given a YAML library whose load reads back what its dump wrote (with
    mapping keys sorted, as [yaml.safe_dump] does), saving an AgentConfig to a
    path and loading it from that path yields the same [default_provider] and
    the same provider names (in key order). *)
Theorem save_then_load_roundtrip : forall (Y : YamlLib),
  (forall v, safe_load Y (safe_dump Y v) = Ok (sort_keys v)) ->
  forall home fs path c,
  exists c', load Y home (save Y home c path fs) path = Ok c' /\
    default_provider c' = default_provider c /\
    Permutation (map fst (providers c')) (map fst (providers c)).
Proof.
  intros Y HY home fs path c.
  eexists. split; [apply (load_after_save Y HY)|]. cbn. split; [reflexivity|].
  apply Permutation_map, sort_entries_perm.
Qed.

Lemma save_then_load_roundtrip_witness :
  exists c',
    load Ysorted "/home/user"
      (save Ysorted "/home/user" create_default_config (Some "/tmp/config.yaml") no_files)
      (Some "/tmp/config.yaml") = Ok c' /\
    default_provider c' = "openai" /\
    Permutation (map fst (providers c')) ["openai"; "anthropic"; "local_mcp"].
Proof.
  exact (save_then_load_roundtrip Ysorted (fun v => eq_refl) "/home/user" no_files
           (Some "/tmp/config.yaml") create_default_config).
Defined.

(** C9 (counterexample): loading from a path with no file does not return the
    example configuration of [create_default_config]. *)
Lemma load_missing_file_not_example_config :
  load Ysorted "/home/user" no_files (Some "/tmp/config.yaml") <> Ok create_default_config.
Proof.
  intros H. vm_compute in H. congruence.
Qed.

(** C9 (amended): loading from a path at which no file exists succeeds and
    returns [AgentConfig()]: default provider "openai" and no providers. *)
Theorem load_missing_file_default : forall Y home fs path,
  fs (match path with Some p => p | None => get_config_path home end) = None ->
  load Y home fs path = Ok {| default_provider := "openai"; providers := [] |}.
Proof.
  intros Y home fs path H. unfold load. now rewrite H.
Qed.

Lemma load_missing_file_default_witness :
  load Ysorted "/home/user" no_files None
  = Ok {| default_provider := "openai"; providers := [] |}.
Proof.
  exact (load_missing_file_default Ysorted "/home/user" no_files None eq_refl).
Defined.

(** ** Further properties: adapters, commands and the mock server *)

(** *** Helpers *)


Lemma not_2xx : forall st,
  ~ (200 <= st < 300)%Z -> ((200 <=? st)%Z && (st <? 300)%Z) = false.
Proof.
  intros st H. destruct (Z.leb_spec 200 st), (Z.ltb_spec st 300); cbn;
    try reflexivity; lia.
Qed.

Lemma is_2xx : forall st,
  (200 <= st < 300)%Z -> ((200 <=? st)%Z && (st <? 300)%Z) = true.
Proof.
  intros st H. destruct (Z.leb_spec 200 st), (Z.ltb_spec st 300); cbn;
    try reflexivity; lia.
Qed.




Lemma resolved_load : forall Y home fs path,
  load Y home fs path = load Y home fs (Some (resolved_path home path)).
Proof. intros Y home fs [p|]; reflexivity. Qed.

Lemma load_after_init : forall (Y : YamlLib),
  (forall v, safe_load Y (safe_dump Y v) = Ok (sort_keys v)) ->
  forall home fs path force,
  (fs (resolved_path home path) = None \/ force = true) ->
  load Y home (Commands.init Y home fs path force) path = Ok initial_config.
Proof.
  intros Y HY home fs path force Hc.
  assert (Hi : Commands.init Y home fs path force
               = save Y home create_default_config (Some (resolved_path home path)) fs).
  { unfold Commands.init. fold (resolved_path home path).
    destruct (fs (resolved_path home path)); [|reflexivity].
    destruct Hc as [Hc | ->]; [discriminate Hc | reflexivity]. }
  rewrite Hi, resolved_load. apply (load_after_save Y HY).
Qed.


Lemma get_provider_openai : forall env,
  Cli.get_provider env "openai" initial_config
  = (p <- OpenAI.init env openai_test_config' ;; Ok (Cli.POpenAI p)).
Proof. reflexivity. Qed.


Lemma split_mock_prefix : forall s,
  split_aux ("Mock response to: " ++ s) "" = "Mock" :: "response" :: "to:" :: split_aux s "".
Proof. intros s. reflexivity. Qed.

Lemma create_completion_eq : forall hash input,
  MockServer.create_completion hash input
  = PDict [("id", PStr ("mock-" ++ py_str_int (Z.modulo (hash input) 10000)));
           ("output", PStr ("Mock response to: " ++ input));
           ("token_usage", PDict [("prompt", PInt (Z.of_nat (length (py_split input))));
                                  ("completion",
                                    PInt (Z.of_nat (length (py_split input)) + 3))])].
Proof.
  intros hash input. unfold MockServer.create_completion. cbv zeta.
  unfold py_split at 2. rewrite split_mock_prefix. cbn [length].
  replace (Z.of_nat (S (S (S (length (split_aux input ""))))))
    with (Z.of_nat (length (split_aux input "")) + 3)%Z by lia.
  reflexivity.
Qed.

Lemma mock_accepts_payload : forall q prompt o,
  MockServer.validate_request (HTTPAdapter.payload q prompt o) = Some prompt.
Proof. intros q prompt [om omt [t|]]; reflexivity. Qed.

(** *** Provider adapters *)

(** X1: the OpenAI adapter fails with IndexError when the response's
    [choices] is an empty list. *)
Theorem openai_empty_choices : forall srv q prompt o log st d,
  srv (OpenAI.request_of q prompt o) = HttpResponse st (Some (PDict d)) ->
  (200 <= st < 300)%Z ->
  dict_lookup "choices" d = Some (PList []) ->
  fst (OpenAI.complete srv q prompt o log) = Err IndexError.
Proof.
  intros srv q prompt o log st d Hs Hst Hc. unfold OpenAI.complete, M_bind.
  rewrite (post_success srv _ st _ log Hs Hst). cbn [lift fst].
  unfold OpenAI.parse. cbn. rewrite Hc. reflexivity.
Qed.

Lemma openai_empty_choices_witness :
  fst (OpenAI.complete (answer (PDict [("id", PStr "x"); ("choices", PList [])]))
         openai_test_provider "Hi" no_options []) = Err IndexError.
Proof.
  apply (openai_empty_choices _ openai_test_provider "Hi" no_options [] 200%Z
           [("id", PStr "x"); ("choices", PList [])]); [reflexivity | lia | reflexivity].
Defined.

(** X2: the OpenAI adapter fails with AttributeError when the response carries
    [usage: null]: [data.get("usage", {})] returns None, which has no [get]. *)
Theorem openai_null_usage : forall srv q prompt o log st d c0 m txt cs,
  srv (OpenAI.request_of q prompt o) = HttpResponse st (Some (PDict d)) ->
  (200 <= st < 300)%Z ->
  dict_lookup "choices" d = Some (PList (PDict c0 :: cs)) ->
  dict_lookup "message" c0 = Some (PDict m) ->
  dict_lookup "content" m = Some txt ->
  dict_lookup "usage" d = Some PNone ->
  fst (OpenAI.complete srv q prompt o log) = Err AttributeError.
Proof.
  intros srv q prompt o log st d c0 m txt cs Hs Hst Hc Hm Ht Hu.
  unfold OpenAI.complete, M_bind.
  rewrite (post_success srv _ st _ log Hs Hst). cbn [lift fst].
  unfold OpenAI.parse. cbn. rewrite Hc. cbn. rewrite Hm. cbn. rewrite Ht. cbn.
  rewrite Hu. reflexivity.
Qed.

Lemma openai_null_usage_witness :
  fst (OpenAI.complete
         (answer (PDict (app openai_response_without_usage [("usage", PNone)])))
         openai_test_provider "Hi" no_options []) = Err AttributeError.
Proof.
  apply (openai_null_usage _ openai_test_provider "Hi" no_options [] 200%Z
           (app openai_response_without_usage [("usage", PNone)])
           [("message", PDict [("content", PStr "Hello, world!")])]
           [("content", PStr "Hello, world!")] (PStr "Hello, world!") []);
    (reflexivity || lia).
Defined.

(** X3: the OpenAI adapter fails with KeyError "id" when the response has no
    [id], even though the text and the usage could be read. *)
Theorem openai_missing_id : forall srv q prompt o log st d c0 m txt cs,
  srv (OpenAI.request_of q prompt o) = HttpResponse st (Some (PDict d)) ->
  (200 <= st < 300)%Z ->
  dict_lookup "choices" d = Some (PList (PDict c0 :: cs)) ->
  dict_lookup "message" c0 = Some (PDict m) ->
  dict_lookup "content" m = Some txt ->
  (dict_lookup "usage" d = None \/ exists u, dict_lookup "usage" d = Some (PDict u)) ->
  dict_lookup "id" d = None ->
  fst (OpenAI.complete srv q prompt o log) = Err (KeyError "id").
Proof.
  intros srv q prompt o log st d c0 m txt cs Hs Hst Hc Hm Ht Hu Hi.
  unfold OpenAI.complete, M_bind.
  rewrite (post_success srv _ st _ log Hs Hst). cbn [lift fst].
  unfold OpenAI.parse. cbn. rewrite Hc. cbn. rewrite Hm. cbn. rewrite Ht. cbn.
  destruct Hu as [Hu | [u Hu]]; rewrite Hu; cbn; rewrite Hi; reflexivity.
Qed.

Lemma openai_missing_id_witness :
  fst (OpenAI.complete
         (answer (PDict [("model", PStr "gpt-4o-mini");
                         ("choices", PList [PDict [("message",
                                                    PDict [("content", PStr "Hi")])]])]))
         openai_test_provider "Hi" no_options []) = Err (KeyError "id").
Proof.
  apply (openai_missing_id _ openai_test_provider "Hi" no_options [] 200%Z
           [("model", PStr "gpt-4o-mini");
            ("choices", PList [PDict [("message", PDict [("content", PStr "Hi")])]])]
           [("message", PDict [("content", PStr "Hi")])] [("content", PStr "Hi")]
           (PStr "Hi") []); try (reflexivity || lia).
  left. reflexivity.
Defined.

(** X4: the generic adapter reports no usage when [token_usage] holds a falsy
    value (null, an empty mapping, 0, an empty string, ...), as when it is
    absent. *)
Theorem http_falsy_token_usage : forall m d v,
  dict_lookup "token_usage" d = Some v -> truthy v = false ->
  exists r, HTTPAdapter.parse m (PDict d) = Ok r /\ usage r = None.
Proof.
  intros m d v Hl Hv. unfold HTTPAdapter.parse, py_get. rewrite Hl. cbn [res_bind].
  unfold HTTPAdapter.usage_of. rewrite Hv. cbn. eexists. split; reflexivity.
Qed.

Lemma http_falsy_token_usage_witness :
  exists r, HTTPAdapter.parse "local-model"
              (PDict [("output", PStr "ok"); ("token_usage", PNone)]) = Ok r /\
            usage r = None.
Proof.
  apply (http_falsy_token_usage "local-model" _ PNone); reflexivity.
Defined.

(** X5: the generic adapter fails with AttributeError when [token_usage] is a
    truthy value that is not a mapping (a list, a number, a string). *)
Theorem http_token_usage_not_mapping : forall m d v,
  dict_lookup "token_usage" d = Some v -> truthy v = true ->
  (forall tu, v <> PDict tu) ->
  HTTPAdapter.parse m (PDict d) = Err AttributeError.
Proof.
  intros m d v Hl Hv Hd. unfold HTTPAdapter.parse, py_get. rewrite Hl. cbn [res_bind].
  unfold HTTPAdapter.usage_of. rewrite Hv.
  destruct v as [| | | | |tu]; try reflexivity. exfalso. exact (Hd tu eq_refl).
Qed.

Lemma http_token_usage_not_mapping_witness :
  HTTPAdapter.parse "local-model"
    (PDict [("output", PStr "ok"); ("token_usage", PList [PInt 3; PInt 4])])
  = Err AttributeError.
Proof.
  apply (http_token_usage_not_mapping "local-model" _ (PList [PInt 3; PInt 4]));
    [reflexivity | reflexivity | discriminate].
Defined.

(** X6: a successful completion of the generic adapter reports as its model the
    model the request named, whatever model the response names. *)
Theorem http_result_model : forall srv q prompt o log r log',
  HTTPAdapter.complete srv q prompt o log = (Ok r, log') ->
  Base.model r = PStr (HTTPAdapter.payload_model q o) /\
  payload_field (HTTPAdapter.request_of q prompt o) "model"
  = Some (PStr (HTTPAdapter.payload_model q o)).
Proof.
  intros srv q prompt o log r log' H. unfold HTTPAdapter.complete in H.
  apply bind_post_ok_inv in H as [st [data [_ [_ H]]]].
  split.
  - destruct data as [| | | | |d]; try discriminate H.
    unfold HTTPAdapter.parse in H. res_steps H. now injection H as <-.
  - destruct o as [om omt [t|]]; reflexivity.
Qed.

Lemma http_result_model_witness :
  Base.model {| id := PStr "unknown"; text := PStr "ok"; Base.model := PStr "local-model";
                usage := None |} = PStr (HTTPAdapter.payload_model local_test_provider no_options).
Proof.
  apply (proj1 (http_result_model
                  (answer (PDict [("output", PStr "ok"); ("model", PStr "gpt-9")]))
                  local_test_provider "Hi" no_options [] _
                  [HTTPAdapter.request_of local_test_provider "Hi" no_options]
                  eq_refl)).
Defined.

(** X7: whichever adapter the dispatcher built, a response status outside
    200..299 ends the completion with HTTPStatusError carrying that status,
    after exactly the one request. *)
Theorem complete_error_status : forall auth fb srv p prompt o log st body,
  srv (Commands.request_of auth fb p prompt o) = HttpResponse st body ->
  ~ (200 <= st < 300)%Z ->
  Cli.complete auth fb srv p prompt o log
  = (Err (HTTPStatusError st), (log ++ [Commands.request_of auth fb p prompt o])%list).
Proof.
  intros auth fb srv [q|q|q] prompt o log st body Hs Hst;
    cbn [Commands.request_of] in Hs |- *; cbn [Cli.complete];
    [unfold OpenAI.complete | unfold Anthropic.complete | unfold HTTPAdapter.complete];
    unfold M_bind, post; rewrite Hs, (not_2xx st Hst); reflexivity.
Qed.

Lemma complete_error_status_witness :
  Cli.complete test_auth "m" (fun _ => HttpResponse 503 None)
    (Cli.PHTTP local_test_provider) "Hi" no_options []
  = (Err (HTTPStatusError 503),
     [Commands.request_of test_auth "m" (Cli.PHTTP local_test_provider) "Hi" no_options]).
Proof.
  apply (complete_error_status test_auth "m" (fun _ => HttpResponse 503 None)
           (Cli.PHTTP local_test_provider) "Hi" no_options [] 503%Z None);
    [reflexivity | lia].
Defined.

(** X8: whichever adapter the dispatcher built, a 2xx response whose body is
    not JSON ends the completion with a JSON decoding error, after exactly the
    one request. *)
Theorem complete_non_json : forall auth fb srv p prompt o log st,
  srv (Commands.request_of auth fb p prompt o) = HttpResponse st None ->
  (200 <= st < 300)%Z ->
  Cli.complete auth fb srv p prompt o log
  = (Err JSONDecodeError, (log ++ [Commands.request_of auth fb p prompt o])%list).
Proof.
  intros auth fb srv [q|q|q] prompt o log st Hs Hst;
    cbn [Commands.request_of] in Hs |- *; cbn [Cli.complete];
    [unfold OpenAI.complete | unfold Anthropic.complete | unfold HTTPAdapter.complete];
    unfold M_bind, post; rewrite Hs, (is_2xx st Hst); reflexivity.
Qed.

Lemma complete_non_json_witness :
  Cli.complete test_auth "m" (fun _ => HttpResponse 200 None)
    (Cli.POpenAI openai_test_provider) "Hi" no_options []
  = (Err JSONDecodeError,
     [Commands.request_of test_auth "m" (Cli.POpenAI openai_test_provider) "Hi" no_options]).
Proof.
  apply (complete_non_json test_auth "m" (fun _ => HttpResponse 200 None)
           (Cli.POpenAI openai_test_provider) "Hi" no_options [] 200%Z);
    [reflexivity | lia].
Defined.

(** *** Configuration and the dispatcher *)

(** X9: the dispatcher fails with ValueError on a non-empty provider name that
    is not configured; the message names it and lists the configured names. *)
Theorem get_provider_unknown : forall env name cfg,
  name <> "" -> dict_lookup name (providers cfg) = None ->
  Cli.get_provider env name cfg
  = Err (ValueError ("Provider '" ++ name ++ "' not found in config. Available: "
                     ++ py_join ", " (map fst (providers cfg)))).
Proof.
  intros env name cfg Hn Hl. unfold Cli.get_provider, Config.get_provider.
  unfold py_or_default, truthy_str.
  destruct (String.eqb name "") eqn:E; [apply String.eqb_eq in E; contradiction|].
  cbn. rewrite Hl. reflexivity.
Qed.

Lemma get_provider_unknown_witness :
  Cli.get_provider no_env "gemini" initial_config
  = Err (ValueError ("Provider 'gemini' not found in config. Available: "
                     ++ "anthropic, local_mcp, openai")).
Proof.
  apply (get_provider_unknown no_env "gemini" initial_config); [discriminate | reflexivity].
Defined.

(** X10: the dispatcher resolves the empty provider name to the configured
    default provider ([name or self.default_provider]). *)
Theorem get_provider_empty_name : forall env cfg,
  dict_lookup (default_provider cfg) (providers cfg) <> None ->
  Cli.get_provider env "" cfg = Cli.get_provider env (default_provider cfg) cfg.
Proof.
  intros env cfg H. unfold Cli.get_provider, Config.get_provider.
  unfold py_or_default, truthy_str. cbn [String.eqb negb].
  destruct (String.eqb (default_provider cfg) ""); cbn;
    (destruct (dict_lookup (default_provider cfg) (providers cfg));
     [reflexivity | contradiction]).
Qed.

Lemma get_provider_empty_name_witness :
  Cli.get_provider no_env "" initial_config
  = Cli.get_provider no_env "openai" initial_config.
Proof.
  apply (get_provider_empty_name no_env initial_config). discriminate.
Defined.

(** X11: a configuration file whose YAML document is falsy (empty, null, an
    empty mapping) loads as [AgentConfig()]; a truthy document that is not a
    mapping fails with TypeError. *)
Theorem load_document_shape : forall Y home fs path doc v,
  fs (resolved_path home path) = Some doc -> safe_load Y doc = Ok v ->
  (truthy v = false -> load Y home fs path = Ok AgentConfig_default) /\
  (truthy v = true -> (forall d, v <> PDict d) -> load Y home fs path = Err TypeError).
Proof.
  intros Y home fs path doc v Hf Hl. rewrite resolved_load. unfold load.
  rewrite Hf, Hl. cbn [res_bind]. split.
  - intros Hv. rewrite Hv. reflexivity.
  - intros Hv Hd. rewrite Hv.
    destruct v as [| | | | |d]; try reflexivity. exfalso. exact (Hd d eq_refl).
Qed.

Lemma load_document_shape_witness :
  load Ysorted "/home/user" (fun _ => Some PNone) None = Ok AgentConfig_default.
Proof.
  apply (proj1 (load_document_shape Ysorted "/home/user" (fun _ => Some PNone) None
                  PNone PNone eq_refl eq_refl)).
  reflexivity.
Defined.

(** *** Commands *)

(** X12: [init] without [--force] leaves an existing configuration file, and
    every other file, untouched. *)
Theorem init_keeps_existing : forall Y home fs path,
  fs (resolved_path home path) <> None ->
  Commands.init Y home fs path false = fs.
Proof.
  intros Y home fs path H. unfold Commands.init. fold (resolved_path home path).
  destruct (fs (resolved_path home path)); [reflexivity | contradiction].
Qed.

Lemma init_keeps_existing_witness :
  Commands.init Ysorted "/home/user" (fun _ => Some PNone) None false
  = (fun _ => Some PNone).
Proof.
  apply (init_keeps_existing Ysorted "/home/user" (fun _ => Some PNone) None). discriminate.
Defined.

(** X13: when the file is missing or [--force] is given, [init] writes the
    example configuration: loading the file afterwards yields default provider
    "openai" with providers anthropic, local_mcp and openai (sorted by the
    dump), and no other file changes. *)
Theorem init_writes_example : forall (Y : YamlLib),
  (forall v, safe_load Y (safe_dump Y v) = Ok (sort_keys v)) ->
  forall home fs path force,
  (fs (resolved_path home path) = None \/ force = true) ->
  load Y home (Commands.init Y home fs path force) path = Ok initial_config /\
  map fst (providers initial_config) = ["anthropic"; "local_mcp"; "openai"] /\
  (forall q, q <> resolved_path home path -> Commands.init Y home fs path force q = fs q).
Proof.
  intros Y HY home fs path force Hc. split; [|split; [reflexivity|]].
  - exact (load_after_init Y HY home fs path force Hc).
  - intros q Hq. unfold Commands.init. fold (resolved_path home path).
    assert (Hs : save Y home create_default_config (Some (resolved_path home path)) fs q
                 = fs q).
    { unfold save. destruct (String.eqb_spec q (resolved_path home path));
        [contradiction | reflexivity]. }
    destruct (fs (resolved_path home path)); [destruct force|]; auto.
Qed.

Lemma init_writes_example_witness :
  load Ysorted "/home/user" (Commands.init Ysorted "/home/user" no_files None false) None
  = Ok initial_config.
Proof.
  apply (proj1 (init_writes_example Ysorted (fun v => eq_refl) "/home/user" no_files
                  None false (or_introl eq_refl))).
Defined.

(** X14: right after [init], [call] without [--provider] uses "openai", and
    fails before sending anything when OPENAI_API_KEY is unset or empty. *)
Theorem init_then_call_needs_key : forall (Y : YamlLib),
  (forall v, safe_load Y (safe_dump Y v) = Ok (sort_keys v)) ->
  forall home fs path force env auth fb srv prompt model mt log,
  (fs (resolved_path home path) = None \/ force = true) ->
  truthy_str (env "OPENAI_API_KEY") = false ->
  Commands.call Y home (Commands.init Y home fs path force) env auth fb srv prompt None
    path model mt log
  = (Err (ValueError "API key not found. Set environment variable: OPENAI_API_KEY"), log).
Proof.
  intros Y HY home fs path force env auth fb srv prompt model mt log Hc Hk.
  unfold Commands.call, M_bind, lift.
  rewrite (load_after_init Y HY home fs path force Hc).
  change (py_or_default truthy_str None (default_provider initial_config)) with "openai".
  rewrite get_provider_openai. unfold OpenAI.init.
  change (get_api_key env openai_test_config') with (env "OPENAI_API_KEY").
  rewrite Hk. reflexivity.
Qed.

Lemma init_then_call_needs_key_witness :
  Commands.call Ysorted "/home/user" (Commands.init Ysorted "/home/user" no_files None false)
    no_env test_auth "m" (answer PNone) "Hi" None None None None []
  = (Err (ValueError "API key not found. Set environment variable: OPENAI_API_KEY"), []).
Proof.
  apply (init_then_call_needs_key Ysorted (fun v => eq_refl) "/home/user" no_files None
           false no_env test_auth "m" (answer PNone) "Hi" None None []);
    [left | ]; reflexivity.
Defined.



(** X16: without a configuration file, [call] fails before sending anything:
    the provider (the one given, else "openai") is reported as not found, with
    no provider available. *)
Theorem call_without_config : forall Y home fs env auth fb srv prompt provider_name path
  model mt log,
  fs (resolved_path home path) = None ->
  Commands.call Y home fs env auth fb srv prompt provider_name path model mt log
  = (Err (ValueError ("Provider '" ++ py_or_default truthy_str provider_name "openai"
                      ++ "' not found in config. Available: ")), log).
Proof.
  intros Y home fs env auth fb srv prompt provider_name path model mt log H.
  unfold Commands.call, M_bind at 1, lift at 1.
  rewrite resolved_load. unfold load. rewrite H. cbn [M_bind lift].
  set (name := py_or_default truthy_str provider_name (default_provider AgentConfig_default)).
  unfold Cli.get_provider, Config.get_provider. cbn [providers AgentConfig_default].
  destruct (py_or_default truthy_str (Some name) _); reflexivity.
Qed.

Lemma call_without_config_witness :
  Commands.call Ysorted "/home/user" no_files no_env test_auth "m" (answer PNone) "Hi"
    None None None None []
  = (Err (ValueError "Provider 'openai' not found in config. Available: "), []).
Proof.
  apply (call_without_config Ysorted "/home/user" no_files no_env test_auth "m"
           (answer PNone) "Hi" None None None None []).
  reflexivity.
Defined.

(** X17: [call] without [--provider], or with an empty one, behaves as [call]
    naming the configured default provider. *)
Theorem call_default_provider : forall Y home fs env auth fb srv prompt path model mt c,
  load Y home fs path = Ok c ->
  forall log,
  Commands.call Y home fs env auth fb srv prompt None path model mt log
  = Commands.call Y home fs env auth fb srv prompt (Some (default_provider c)) path model mt log /\
  Commands.call Y home fs env auth fb srv prompt (Some "") path model mt log
  = Commands.call Y home fs env auth fb srv prompt (Some (default_provider c)) path model mt log.
Proof.
  intros Y home fs env auth fb srv prompt path model mt c H log.
  unfold Commands.call, M_bind at 1 4 7, lift at 1 3 5. rewrite H.
  unfold py_or_default, truthy_str. cbn [String.eqb negb].
  destruct (String.eqb (default_provider c) ""); split; reflexivity.
Qed.

Lemma call_default_provider_witness :
  Commands.call Ysorted "/home/user" no_files no_env test_auth "m" (answer PNone) "Hi"
    None None None None []
  = Commands.call Ysorted "/home/user" no_files no_env test_auth "m" (answer PNone) "Hi"
      (Some "openai") None None None [].
Proof.
  apply (proj1 (call_default_provider Ysorted "/home/user" no_files no_env test_auth "m"
                  (answer PNone) "Hi" None None None AgentConfig_default eq_refl [])).
Defined.




(** X20: every request the [test] command sends asks for 50 tokens at most,
    whatever max_tokens the provider's configuration sets. *)
Theorem test_requests_max_tokens : forall env auth fb cfg names r,
  In r (test_requests env auth fb cfg names) ->
  payload_field r "max_tokens" = Some (PInt 50).
Proof.
  intros env auth fb cfg names r H. unfold test_requests in H.
  apply in_flat_map in H as [name [_ Hin]].
  destruct (Cli.get_provider env name cfg) as [p|e]; [|contradiction].
  destruct Hin as [<-|[]]. destruct p; reflexivity.
Qed.

Lemma test_requests_max_tokens_witness :
  payload_field (HTTPAdapter.request_of local_mcp_provider Commands.test_prompt
                   Commands.test_options) "max_tokens" = Some (PInt 50).
Proof.
  apply (test_requests_max_tokens no_env test_auth "m" initial_config ["local_mcp"]).
  vm_compute. left. reflexivity.
Defined.

(** *** The mock MCP server *)

(** X21: the mock server echoes the input after "Mock response to: ", and
    counts three more completion tokens (whitespace-separated words) than
    prompt tokens. *)
Theorem mock_completion_tokens : forall hash input,
  exists i,
    MockServer.create_completion hash input
    = PDict [("id", PStr ("mock-" ++ i));
             ("output", PStr ("Mock response to: " ++ input));
             ("token_usage", PDict [("prompt", PInt (Z.of_nat (length (py_split input))));
                                    ("completion",
                                      PInt (Z.of_nat (length (py_split input)) + 3))])].
Proof.
  intros hash input. eexists. apply create_completion_eq.
Qed.

(** X22: the generic adapter pointed at the mock server always succeeds, with
    exactly one request: the text is the echo, the model the one requested,
    the id starts with "mock-", and the usage is n prompt tokens, n + 3
    completion tokens and 2n + 3 in total, n the number of words of the prompt. *)
Theorem mock_end_to_end : forall hash q prompt o log,
  let n := Z.of_nat (length (py_split prompt)) in
  HTTPAdapter.complete (MockServer.app hash (base_url (HTTPAdapter.config q))) q prompt o log
  = (Ok {| id := PStr ("mock-" ++ py_str_int (Z.modulo (hash prompt) 10000));
           text := PStr ("Mock response to: " ++ prompt);
           Base.model := PStr (HTTPAdapter.payload_model q o);
           usage := Some {| prompt_tokens := PInt n; completion_tokens := PInt (n + 3);
                            total_tokens := PInt (2 * n + 3) |} |},
     (log ++ [HTTPAdapter.request_of q prompt o])%list).
Proof.
  intros hash q prompt o log n.
  assert (Hs : MockServer.app hash (base_url (HTTPAdapter.config q))
                 (HTTPAdapter.request_of q prompt o)
               = HttpResponse 200 (Some (MockServer.create_completion hash prompt))).
  { unfold MockServer.app. cbn [HTTPAdapter.request_of req_url req_json].
    rewrite String.eqb_refl, mock_accepts_payload. reflexivity. }
  unfold HTTPAdapter.complete, M_bind.
  rewrite (post_success _ _ 200 _ log Hs ltac:(lia)).
  rewrite create_completion_eq. fold n. unfold lift. cbn.
  replace (n + (n + 3))%Z with (2 * n + 3)%Z by lia. reflexivity.
Qed.
